(** * A shallow embedding of [app.py], the Streamlit chat client

    The script keeps one session in [st.session_state], talks to the HTTP API
    through seven small functions that wrap [requests], and reacts to the
    widgets of the page.  Everything the script reads from outside (the
    answers of the server, the wall clock, the random bits behind
    [uuid.uuid4]) is an explicit input here; the session is threaded through
    a small monad that keeps the mutations made before an exception, as
    Python does. *)

From Stdlib Require Import ZArith List String Ascii Bool Lia.
From Stdlib Require Import SpecFloat.
Import ListNotations.

Local Open Scope string_scope.
Local Open Scope list_scope.
Local Open Scope Z_scope.

#[local] Set Warnings "-register-all".

(** ** Python floats: IEEE 754 binary64, as specified by [SpecFloat] *)

Definition float64 : Type := spec_float.

Module Float64.

Definition prec : Z := 53.
Definition emax : Z := 1024.

Definition zero : float64 := S754_zero false.
Definition one : float64 := S754_finite false 4503599627370496 (-52).

Definition add (x y : float64) : float64 := SFadd prec emax x y.
Definition ltb (x y : float64) : bool := SFltb x y.
Definition leb (x y : float64) : bool := SFleb x y.
Definition eqb (x y : float64) : bool := SFeqb x y.
Definition valid (x : float64) : bool := valid_binary prec emax x.

(** [float(n)] for a Python int: the nearest double, ties to even. *)
Definition of_Z (n : Z) : float64 := binary_normalize prec emax n 0 false.

Definition is_infinite (x : float64) : bool :=
  match x with S754_infinity _ => true | _ => false end.

(** The sum of a list of doubles: additions from the left, from 0.0. *)
Definition sum (l : list float64) : float64 := fold_left add l zero.

End Float64.

(** ** Python values and the dynamic operations the script applies to them *)

Inductive exn : Type :=
| TypeError | KeyError | AttributeError | ValueError | OverflowError
| RequestException   (* raised by [requests.get/post/delete] *)
| JSONDecodeError.   (* raised by [response.json()] *)

Inductive result (A : Type) : Type :=
| Ok (a : A)
| Raise (x : exn).
Arguments Ok {A} a.
Arguments Raise {A} x.

Definition rbind {A B} (r : result A) (k : A -> result B) : result B :=
  match r with Ok a => k a | Raise x => Raise x end.

(** [try: body  except: handler] with a bare [except]. *)
Definition try_except {A} (body : result A) (handler : result A) : result A :=
  match body with Ok a => Ok a | Raise _ => handler end.

Declare Scope result_scope.
Delimit Scope result_scope with result.
Notation "x <- r ;; k" := (rbind r (fun x => k))
  (at level 61, r at next level, right associativity) : result_scope.

(** What [json.loads] builds: None, bool, int, float, str, list, dict.
    A str is held as its UTF-8 bytes.  A dict is the list of its items, keys
    pairwise distinct, looked up by key. *)
Inductive json : Type :=
| JNull
| JBool (b : bool)
| JInt (n : Z)
| JFloat (f : float64)
| JStr (s : string)
| JArr (l : list json)
| JObj (items : list (string * json)).

Fixpoint lookup (key : string) (items : list (string * json)) : option json :=
  match items with
  | [] => None
  | (k, v) :: rest => if String.eqb k key then Some v else lookup key rest
  end.

Definition has_key (key : string) (items : list (string * json)) : bool :=
  match lookup key items with Some _ => true | None => false end.

(** [sub in s] for two strings. *)
Fixpoint contains (sub s : string) : bool :=
  prefix sub s ||
  match s with
  | EmptyString => false
  | String _ rest => contains sub rest
  end.

Definition is_str (key : string) (v : json) : bool :=
  match v with JStr s => String.eqb s key | _ => false end.

(** The characters of a str, over its UTF-8 bytes: a character is a byte
    that is not a continuation byte (10xxxxxx) with the continuation bytes
    that follow it. *)
Definition is_continuation (c : ascii) : bool :=
  let n := Z.of_N (N_of_ascii c) in (128 <=? n) && (n <? 192).

Fixpoint code_points (s : string) : nat :=
  match s with
  | EmptyString => O
  | String c rest =>
      if is_continuation c then code_points rest else S (code_points rest)
  end.

(** The continuation bytes at the head of [s], and the characters after
    them. *)
Fixpoint characters_from (s : string) : string * list string :=
  match s with
  | EmptyString => (EmptyString, [])
  | String c rest =>
      let (continuation, chars) := characters_from rest in
      if is_continuation c then (String c continuation, chars)
      else (EmptyString, String c continuation :: chars)
  end.

Definition characters (s : string) : list string := snd (characters_from s).

Fixpoint is_7bit (s : string) : bool :=
  match s with
  | EmptyString => true
  | String c rest => (Z.of_N (N_of_ascii c) <? 128) && is_7bit rest
  end.

Module Py.

(** [key in v], [key] a string literal. *)
Definition contains_key (key : string) (v : json) : result bool :=
  match v with
  | JObj items => Ok (has_key key items)
  | JArr l => Ok (existsb (is_str key) l)
  | JStr s => Ok (contains key s)
  | JNull | JBool _ | JInt _ | JFloat _ => Raise TypeError
  end.

(** [v[key]], [key] a string literal. *)
Definition getitem (v : json) (key : string) : result json :=
  match v with
  | JObj items =>
      match lookup key items with Some x => Ok x | None => Raise KeyError end
  | _ => Raise TypeError
  end.

(** [v.get(key, default)]. *)
Definition get (v : json) (key : string) (default : json) : result json :=
  match v with
  | JObj items =>
      Ok (match lookup key items with Some x => x | None => default end)
  | _ => Raise AttributeError
  end.

(** [len(v)]. *)
Definition len (v : json) : result Z :=
  match v with
  | JArr l => Ok (Z.of_nat (List.length l))
  | JStr s => Ok (Z.of_nat (code_points s))
  | JObj items => Ok (Z.of_nat (List.length items))
  | JNull | JBool _ | JInt _ | JFloat _ => Raise TypeError
  end.

(** Truth value of [v] in an [if]. *)
Definition truthy (v : json) : bool :=
  match v with
  | JNull => false
  | JBool b => b
  | JInt n => negb (n =? 0)
  | JFloat f => negb (Float64.eqb f Float64.zero)
  | JStr s => negb (String.eqb s "")
  | JArr l => match l with [] => false | _ => true end
  | JObj items => match items with [] => false | _ => true end
  end.

(** [v.append], the bound method: looked up before the argument of the call
    is evaluated, and there only for a list. *)
Definition append (v : json) : result (json -> json) :=
  match v with
  | JArr l => Ok (fun x => JArr (l ++ [x]))
  | _ => Raise AttributeError
  end.

(** [for msg in v]: the items visited. *)
Definition iter (v : json) : result (list json) :=
  match v with
  | JArr l => Ok l
  | JStr s => Ok (map JStr (characters s))
  | JObj items => Ok (map (fun kv => JStr (fst kv)) items)
  | JNull | JBool _ | JInt _ | JFloat _ => Raise TypeError
  end.

(** [str.title()] on 7-bit text, the only text it is applied to here: a
    letter that follows a letter is lowered, any other letter is raised. *)
Definition is_upper (c : ascii) : bool :=
  let n := Z.of_N (N_of_ascii c) in (65 <=? n) && (n <=? 90).
Definition is_lower (c : ascii) : bool :=
  let n := Z.of_N (N_of_ascii c) in (97 <=? n) && (n <=? 122).
Definition is_cased (c : ascii) : bool := is_upper c || is_lower c.
Definition upper (c : ascii) : ascii :=
  if is_lower c then ascii_of_N (N_of_ascii c - 32) else c.
Definition lower (c : ascii) : ascii :=
  if is_upper c then ascii_of_N (N_of_ascii c + 32) else c.

Fixpoint title_from (previous_is_cased : bool) (s : string) : string :=
  match s with
  | EmptyString => EmptyString
  | String c rest =>
      String (if previous_is_cased then lower c else upper c)
             (title_from (is_cased c) rest)
  end.

End Py.

(** ** The wall clock and [uuid.uuid4] *)

Record datetime : Type := {
  year : Z; month : Z; day : Z; hour : Z; minute : Z; second : Z
}.

Definition digit (d : Z) : ascii := ascii_of_N (Z.to_N (48 + d mod 10)).

Definition pad2 (n : Z) : string :=
  String (digit (n / 10)) (String (digit n) EmptyString).

Definition pad4 (n : Z) : string := pad2 (n / 100) ++ pad2 n.

(** [strftime("%H:%M:%S")] *)
Definition strftime_HMS (t : datetime) : string :=
  pad2 (hour t) ++ ":" ++ pad2 (minute t) ++ ":" ++ pad2 (second t).

(** [strftime("%Y%m%d_%H%M%S")] *)
Definition strftime_file (t : datetime) : string :=
  pad4 (year t) ++ pad2 (month t) ++ pad2 (day t) ++ "_" ++
  pad2 (hour t) ++ pad2 (minute t) ++ pad2 (second t).

Module Uuid.

(** [uuid4()]: 128 random bits with the variant and version bits forced. *)
Definition uuid4 (random_bits : Z) : Z :=
  let i := random_bits mod 2 ^ 128 in
  let i := Z.land i (Z.lnot (Z.shiftl 49152 48)) in
  let i := Z.lor i (Z.shiftl 32768 48) in
  let i := Z.land i (Z.lnot (Z.shiftl 61440 64)) in
  Z.lor i (Z.shiftl 4 76).

Definition hex_digit (d : Z) : ascii :=
  let d := d mod 16 in
  if d <? 10 then ascii_of_N (Z.to_N (48 + d)) else ascii_of_N (Z.to_N (87 + d)).

(** ['%0nx' % i], the [n] low hexadecimal digits of [i]. *)
Fixpoint hex (n : nat) (i : Z) : string :=
  match n with
  | O => EmptyString
  | S n' => hex n' (i / 16) ++ String (hex_digit i) EmptyString
  end.

(** [str(u)]: 8-4-4-4-12 hexadecimal digits. *)
Definition to_str (u : Z) : string :=
  let h := hex 32 u in
  substring 0 8 h ++ "-" ++ substring 8 4 h ++ "-" ++ substring 12 4 h ++ "-" ++
  substring 16 4 h ++ "-" ++ substring 20 12 h.

End Uuid.

(** ** The HTTP API, as [requests] sees it *)

Inductive http_method : Type := GET | POST | DELETE.

Record request : Type := {
  method : http_method;
  url : string;
  payload : option json          (* the [json=] argument *)
}.

(** A response: its status code and what [response.json()] returns, [None]
    when the body is not JSON and the call raises. *)
Record response : Type := {
  status_code : Z;
  body : option json
}.

(** The server and the network between: [None] when [requests] raises
    (connection refused, timeout). *)
Definition server : Type := request -> option response.

Definition requests_send (srv : server) (rq : request) : result response :=
  match srv rq with Some r => Ok r | None => Raise RequestException end.

Definition response_json (r : response) : result json :=
  match body r with Some j => Ok j | None => Raise JSONDecodeError end.

Definition API_BASE_URL : string := "http://localhost:3001/api".

Definition error_dict (message : string) : json := JObj [("error", JStr message)].

(** The request behind each call. *)
Definition health_request : request :=
  {| method := GET; url := "http://localhost:3001/health"; payload := None |}.

Definition eligibility_request (user_address : string) (model_id : Z) : request :=
  {| method := POST; url := API_BASE_URL ++ "/check-eligibility";
     payload := Some (JObj [("userAddress", JStr user_address);
                            ("modelId", JInt model_id)]) |}.

Definition credits_request (user_address : string) : request :=
  {| method := GET; url := API_BASE_URL ++ "/credits/" ++ user_address;
     payload := None |}.

Definition models_request : request :=
  {| method := GET; url := API_BASE_URL ++ "/models"; payload := None |}.

Definition chat_request (user_address : string) (model_id : Z)
    (message session_id : string) : request :=
  {| method := POST; url := API_BASE_URL ++ "/chat";
     payload := Some (JObj [("userAddress", JStr user_address);
                            ("modelId", JInt model_id);
                            ("message", JStr message);
                            ("sessionId", JStr session_id)]) |}.

Definition history_request (session_id : string) : request :=
  {| method := GET; url := API_BASE_URL ++ "/history/" ++ session_id;
     payload := None |}.

Definition clear_request (session_id : string) : request :=
  {| method := DELETE; url := API_BASE_URL ++ "/session/" ++ session_id;
     payload := None |}.

Section Api.

Variable srv : server.

Local Open Scope result_scope.

Definition check_health : result (bool * option json) :=
  try_except
    (r <- requests_send srv health_request ;;
     if status_code r =? 200
     then (j <- response_json r ;; Ok (true, Some j))
     else Ok (false, None))
    (Ok (false, None)).

Definition check_eligibility (user_address : string) (model_id : Z) : result json :=
  try_except
    (r <- requests_send srv (eligibility_request user_address model_id) ;;
     response_json r)
    (Ok (error_dict "Unable to check eligibility")).

Definition get_credits (user_address : string) : result json :=
  try_except
    (r <- requests_send srv (credits_request user_address) ;;
     response_json r)
    (Ok (error_dict "Unable to fetch credits")).

Definition get_models : result json :=
  try_except
    (r <- requests_send srv models_request ;;
     response_json r)
    (Ok (error_dict "Unable to fetch models")).

Definition send_chat_message (user_address : string) (model_id : Z)
    (message session_id : string) : result json :=
  try_except
    (r <- requests_send srv (chat_request user_address model_id message session_id) ;;
     response_json r)
    (Ok (error_dict "Unable to send message")).

Definition get_chat_history (session_id : string) : result json :=
  try_except
    (r <- requests_send srv (history_request session_id) ;;
     response_json r)
    (Ok (error_dict "Unable to fetch history")).

Definition clear_session (session_id : string) : result bool :=
  try_except
    (r <- requests_send srv (clear_request session_id) ;;
     Ok (status_code r =? 200))
    (Ok false).

End Api.

Definition format_timestamp (now : datetime) : string := strftime_HMS now.

(** Lines 32-37: the catalog of models, by id (name, description; the icons
    are left out).  Its keys are the options of the selectbox. *)
Definition AI_MODELS : list (Z * (string * string)) :=
  [(0, ("GPT-5 Standard", "General purpose AI assistant"));
   (1, ("Healthcare AI", "Medical advice and health guidance"));
   (2, ("Coding Expert", "Programming and development help"));
   (3, ("Emotional Support AI", "Empathetic conversation partner"))].

(** ** The session: [st.session_state] and the model picked in the selectbox *)

Record session : Type := {
  session_id : option string;
  chat_history : json;
  user_address : string;
  total_cost : float64;
  message_count : Z;
  last_activity : datetime;
  selected_model : Z             (* the value Streamlit keeps for the selectbox *)
}.

Definition set_session_id (v : option string) (s : session) : session :=
  {| session_id := v; chat_history := chat_history s; user_address := user_address s;
     total_cost := total_cost s; message_count := message_count s;
     last_activity := last_activity s; selected_model := selected_model s |}.

Definition set_chat_history (v : json) (s : session) : session :=
  {| session_id := session_id s; chat_history := v; user_address := user_address s;
     total_cost := total_cost s; message_count := message_count s;
     last_activity := last_activity s; selected_model := selected_model s |}.

Definition set_user_address (v : string) (s : session) : session :=
  {| session_id := session_id s; chat_history := chat_history s; user_address := v;
     total_cost := total_cost s; message_count := message_count s;
     last_activity := last_activity s; selected_model := selected_model s |}.

Definition set_total_cost (v : float64) (s : session) : session :=
  {| session_id := session_id s; chat_history := chat_history s;
     user_address := user_address s; total_cost := v;
     message_count := message_count s; last_activity := last_activity s;
     selected_model := selected_model s |}.

Definition set_message_count (v : Z) (s : session) : session :=
  {| session_id := session_id s; chat_history := chat_history s;
     user_address := user_address s; total_cost := total_cost s;
     message_count := v; last_activity := last_activity s;
     selected_model := selected_model s |}.

Definition set_last_activity (v : datetime) (s : session) : session :=
  {| session_id := session_id s; chat_history := chat_history s;
     user_address := user_address s; total_cost := total_cost s;
     message_count := message_count s; last_activity := v;
     selected_model := selected_model s |}.

Definition set_selected_model (v : Z) (s : session) : session :=
  {| session_id := session_id s; chat_history := chat_history s;
     user_address := user_address s; total_cost := total_cost s;
     message_count := message_count s; last_activity := last_activity s;
     selected_model := v |}.

(** Lines 18-29: the state of a fresh browser session; the selectbox starts
    on its first option. *)
Definition initial_session (now : datetime) : session :=
  {| session_id := None; chat_history := JArr []; user_address := "";
     total_cost := Float64.zero; message_count := 0; last_activity := now;
     selected_model := 0 |}.

(** [if st.session_state.session_id]: [None] and the empty string are false. *)
Definition live_session_id (s : session) : option string :=
  match session_id s with
  | Some id => if String.eqb id "" then None else Some id
  | None => None
  end.

(** ** What the page shows *)

Inductive banner : Type :=
| ApiHealthy                        (* st.success: API is healthy! *)
| HealthStatus (status : json)      (* st.info: Status: ... *)
| ApiNotResponding                  (* st.error: API is not responding *)
| Credits (credits : json)          (* st.info: Credits: ... ETH *)
| Eligible (cost : json)            (* st.success: Eligible! Cost: ... ETH *)
| NotEnoughCredits (cost : json)    (* st.warning: Not enough credits. Cost: ... ETH *)
| ChatCleared                       (* st.success: Chat history cleared! *)
| ClearFailed                       (* st.error: Failed to clear session *)
| AddressMissing                    (* st.error: Please enter your wallet address first! *)
| QueryCost (cost : float64)        (* st.info: Query cost: ... ETH *)
| ErrorBanner (message : json)      (* st.error(data.get("error", default)) *)
| Download (data file_name : string)(* st.download_button *)
| NothingToExport.                  (* st.warning: No chat history to export *)

(** ** The monad of the script

    A block of the script reads and writes the session, shows banners, and
    either runs to its end, asks for a rerun ([st.rerun()]), or dies on an
    exception nobody catches.  The session keeps what was written before the
    block stopped. *)

Inductive halt : Type :=
| RerunRequested
| Unhandled (x : exn).

Inductive flow (A : Type) : Type :=
| Continue (a : A)
| Halt (h : halt).
Arguments Continue {A} a.
Arguments Halt {A} h.

Definition script (A : Type) : Type := session -> flow A * session * list banner.

Definition ret {A} (a : A) : script A := fun s => (Continue a, s, []).

Definition bind {A B} (m : script A) (k : A -> script B) : script B :=
  fun s =>
    match m s with
    | (Continue a, s1, shown1) =>
        match k a s1 with (f, s2, shown2) => (f, s2, shown1 ++ shown2) end
    | (Halt h, s1, shown1) => (Halt h, s1, shown1)
    end.

Definition lift {A} (r : result A) : script A :=
  fun s => match r with
           | Ok a => (Continue a, s, [])
           | Raise x => (Halt (Unhandled x), s, [])
           end.

Definition gets {A} (field : session -> A) : script A :=
  fun s => (Continue (field s), s, []).

Definition modify (f : session -> session) : script unit :=
  fun s => (Continue tt, f s, []).

Definition show (b : banner) : script unit := fun s => (Continue tt, s, [b]).

Definition rerun : script unit := fun s => (Halt RerunRequested, s, []).

Declare Scope script_scope.
Delimit Scope script_scope with script.
Notation "x <- m ;; k" := (bind m (fun x => k))
  (at level 61, m at next level, right associativity) : script_scope.
Notation "m ;; k" := (bind m (fun _ => k))
  (at level 61, right associativity) : script_scope.

(** How a block ended. *)
Inductive ending : Type :=
| Completed
| Rerun
| Uncaught (x : exn).

Definition ending_of (f : flow unit) : ending :=
  match f with
  | Continue _ => Completed
  | Halt RerunRequested => Rerun
  | Halt (Unhandled x) => Uncaught x
  end.

Definition final (r : flow unit * session * list banner) : session := snd (fst r).
Definition shown (r : flow unit * session * list banner) : list banner := snd r.
Definition ended (r : flow unit * session * list banner) : ending := ending_of (fst (fst r)).

(** [try: block  except: pass] with a bare [except], which also stops the
    exception behind [st.rerun()]. *)
Definition try_pass (block : script unit) : script unit :=
  fun s =>
    match block s with
    | (Halt _, s1, shown1) => (Continue tt, s1, shown1)
    | r => r
    end.

(** ** What a run of the script reads from outside *)

Record env : Type := {
  srv : server;               (* the API server and the network *)
  clock : nat -> datetime;    (* the successive readings of [datetime.now()] *)
  random_bits : Z             (* the bits drawn by [uuid.uuid4()] *)
}.

Definition newline : string := String (ascii_of_nat 10) EmptyString.

Fixpoint map_result {A B} (f : A -> result B) (l : list A) : result (list B) :=
  match l with
  | [] => Ok []
  | a :: rest =>
      rbind (f a) (fun b => rbind (map_result f rest) (fun bs => Ok (b :: bs)))
  end.

Definition user_message (prompt timestamp : string) : json :=
  JObj [("role", JStr "user"); ("content", JStr prompt); ("timestamp", JStr timestamp)].

Definition assistant_message (content : json) (timestamp : string) : json :=
  JObj [("role", JStr "assistant"); ("content", content); ("timestamp", JStr timestamp)].

Inductive event : Type :=
| AddressInput (address : string)   (* the text input of the sidebar *)
| ModelSelect (model_id : Z)        (* the selectbox, over the keys of AI_MODELS *)
| HealthCheck
| CheckCredits
| CheckEligibility
| ClearChatHistory
| ChatInput (prompt : string)
| ExportChat
| AutoRefresh.                      (* the last block of every run *)

Section Script.

(** Two builtins of Python that the script relies on and that are not
    spelled out here: [float(s)] on a str ([None] for [ValueError]) and the
    text an f-string puts for a value that is not a str. *)
Variable float_of_str : string -> option float64.
Variable str_of_json : json -> string.

(** And a third: [s.title()] on a str that is not 7-bit text, where the
    cases of Unicode decide. *)
Variable title_of_str : string -> string.

(** [v.title()] *)
Definition py_title (v : json) : result string :=
  match v with
  | JStr s => Ok (if is_7bit s then Py.title_from false s else title_of_str s)
  | _ => Raise AttributeError
  end.

(** [float(v)] *)
Definition py_float (v : json) : result float64 :=
  match v with
  | JNull => Raise TypeError
  | JBool b => Ok (if b then Float64.one else Float64.zero)
  | JInt n =>
      let f := Float64.of_Z n in
      if Float64.is_infinite f then Raise OverflowError else Ok f
  | JFloat f => Ok f
  | JStr s =>
      match float_of_str s with Some f => Ok f | None => Raise ValueError end
  | JArr _ | JObj _ => Raise TypeError
  end.

(** [f"{v}"] *)
Definition py_format (v : json) : string :=
  match v with JStr s => s | _ => str_of_json v end.

Local Open Scope script_scope.

(** Lines 143-150. *)
Definition on_health_check (e : env) : script unit :=
  health <- lift (check_health (srv e)) ;;
  if fst health then
    show ApiHealthy ;;
    match snd health with
    | Some health_data =>
        if Py.truthy health_data then
          status <- lift (Py.get health_data "status" (JStr "OK")) ;;
          show (HealthStatus status)
        else ret tt
    | None => ret tt
    end
  else show ApiNotResponding.

(** Lines 153-158. *)
Definition on_check_credits (e : env) : script unit :=
  user_address <- gets user_address ;;
  if String.eqb user_address "" then ret tt
  else
    credits_data <- lift (get_credits (srv e) user_address) ;;
    has_credits <- lift (Py.contains_key "credits" credits_data) ;;
    if has_credits then
      credits <- lift (Py.getitem credits_data "credits") ;;
      show (Credits credits)
    else
      message <- lift (Py.get credits_data "error" (JStr "Failed to fetch credits")) ;;
      show (ErrorBanner message).

(** Lines 161-169. *)
Definition on_check_eligibility (e : env) : script unit :=
  user_address <- gets user_address ;;
  if String.eqb user_address "" then ret tt
  else
    selected_model <- gets selected_model ;;
    eligibility_data <- lift (check_eligibility (srv e) user_address selected_model) ;;
    has_can_chat <- lift (Py.contains_key "canChat" eligibility_data) ;;
    if has_can_chat then
      can_chat <- lift (Py.getitem eligibility_data "canChat") ;;
      if Py.truthy can_chat then
        cost <- lift (Py.getitem eligibility_data "cost") ;;
        show (Eligible cost)
      else
        cost <- lift (Py.getitem eligibility_data "cost") ;;
        show (NotEnoughCredits cost)
    else
      message <- lift (Py.get eligibility_data "error" (JStr "Failed to check eligibility")) ;;
      show (ErrorBanner message).

(** Lines 172-181. *)
Definition on_clear_chat_history (e : env) : script unit :=
  live <- gets live_session_id ;;
  match live with
  | None => ret tt
  | Some id =>
      cleared <- lift (clear_session (srv e) id) ;;
      if cleared : bool then
        modify (set_chat_history (JArr [])) ;;
        modify (set_session_id None) ;;
        modify (set_total_cost Float64.zero) ;;
        modify (set_message_count 0) ;;
        show ChatCleared ;;
        rerun
      else show ClearFailed
  end.

(** Lines 216-228: what the chat block does before it calls the server;
    the value is the session id it will send. *)
Definition chat_prepare (e : env) (prompt : string) : script string :=
  let timestamp := format_timestamp (clock e 0) in
  history <- gets chat_history ;;
  append <- lift (Py.append history) ;;
  modify (set_chat_history (append (user_message prompt timestamp))) ;;
  count <- gets message_count ;;
  modify (set_message_count (count + 1)) ;;
  modify (set_last_activity (clock e 1)) ;;
  live <- gets live_session_id ;;
  match live with
  | Some id => ret id
  | None =>
      let id := Uuid.to_str (Uuid.uuid4 (random_bits e)) in
      modify (set_session_id (Some id)) ;;
      ret id
  end.

(** Lines 234-252: what the chat block does with the answer. *)
Definition chat_complete (e : env) (response : json) : script unit :=
  has_response <- lift (Py.contains_key "response" response) ;;
  if has_response then
    let ai_timestamp := format_timestamp (clock e 2) in
    history <- gets chat_history ;;
    append <- lift (Py.append history) ;;
    content <- lift (Py.getitem response "response") ;;
    modify (set_chat_history (append (assistant_message content ai_timestamp))) ;;
    has_cost <- lift (Py.contains_key "cost" response) ;;
    (if has_cost then
       value <- lift (Py.getitem response "cost") ;;
       cost <- lift (py_float value) ;;
       total <- gets total_cost ;;
       modify (set_total_cost (Float64.add total cost)) ;;
       show (QueryCost cost)
     else ret tt) ;;
    rerun
  else
    message <- lift (Py.get response "error" (JStr "Failed to get AI response")) ;;
    show (ErrorBanner message).

(** Lines 211-252. *)
Definition on_chat_input (e : env) (prompt : string) : script unit :=
  if String.eqb prompt "" then ret tt
  else
    user_address <- gets user_address ;;
    if String.eqb user_address "" then show AddressMissing
    else
      id <- chat_prepare e prompt ;;
      selected_model <- gets selected_model ;;
      response <- lift (send_chat_message (srv e) user_address selected_model prompt id) ;;
      chat_complete e response.

(** Line 261, one item of the list comprehension. *)
Definition render_message (msg : json) : result string :=
  rbind (Py.getitem msg "role") (fun role =>
  rbind (py_title role) (fun titled =>
  rbind (Py.getitem msg "content") (fun content =>
  Ok (titled ++ ": " ++ py_format content)%string))).

(** Lines 259-269. *)
Definition on_export_chat (now : datetime) : script unit :=
  history <- gets chat_history ;;
  if Py.truthy history then
    messages <- lift (Py.iter history) ;;
    lines <- lift (map_result render_message messages) ;;
    show (Download (String.concat (newline ++ newline) lines)
                   ("chat_history_" ++ strftime_file now ++ ".txt"))
  else show NothingToExport.

(** Lines 280-286. *)
Definition auto_refresh (e : env) : script unit :=
  live <- gets live_session_id ;;
  match live with
  | None => ret tt
  | Some id =>
      try_pass
        (history_data <- lift (get_chat_history (srv e) id) ;;
         has_history <- lift (Py.contains_key "history" history_data) ;;
         if has_history then
           history <- lift (Py.getitem history_data "history") ;;
           server_len <- lift (Py.len history) ;;
           local <- gets chat_history ;;
           local_len <- lift (Py.len local) ;;
           if server_len >? local_len then modify (set_chat_history history)
           else ret tt
         else ret tt)
  end.

(** One reaction of the page. *)
Definition handle (e : env) (ev : event) : script unit :=
  match ev with
  | AddressInput address => modify (set_user_address address)   (* line 124 *)
  | ModelSelect model_id => modify (set_selected_model model_id)
  | HealthCheck => on_health_check e
  | CheckCredits => on_check_credits e
  | CheckEligibility => on_check_eligibility e
  | ClearChatHistory => on_clear_chat_history e
  | ChatInput prompt => on_chat_input e prompt
  | ExportChat => on_export_chat (clock e 0)
  | AutoRefresh => auto_refresh e
  end.

Definition step (e : env) (ev : event) (s : session) : session :=
  final (handle e ev s).

(** The sessions the page can be in. *)
Inductive reachable : session -> Prop :=
| reachable_initial now : reachable (initial_session now)
| reachable_step e ev s : reachable s -> reachable (step e ev s).

(** The session id the chat block sends: the live one, or else the one it
    draws. *)
Definition session_id_to_send (e : env) (s : session) : string :=
  match live_session_id s with
  | Some id => id
  | None => Uuid.to_str (Uuid.uuid4 (random_bits e))
  end.

(** The session at the moment the chat block calls the server, [l] being
    the messages before the block. *)
Definition session_at_call (e : env) (prompt : string) (l : list json)
    (s : session) : session :=
  let s1 :=
    set_last_activity (clock e 1)
      (set_message_count (message_count s + 1)
         (set_chat_history
            (JArr (l ++ [user_message prompt (format_timestamp (clock e 0))])) s)) in
  match live_session_id s with
  | Some _ => s1
  | None => set_session_id (Some (Uuid.to_str (Uuid.uuid4 (random_bits e)))) s1
  end.

(** The cost an answer carries, when [float] accepts it. *)
Definition returned_cost (items : list (string * json)) : option float64 :=
  match lookup "cost" items with
  | Some value =>
      match py_float value with Ok cost => Some cost | Raise _ => None end
  | None => None
  end.

(** ** Vocabulary of the properties *)

(** What the sessions the page can be in have in common: a stored session
    id is never the empty string, and without a session id there are no
    messages. *)
Definition tidy (s : session) : Prop :=
  (forall id, session_id s = Some id -> id <> "") /\
  (session_id s = None -> chat_history s = JArr []).

(** A block that leaves the session as it found it. *)
Definition silent {A} (m : script A) : Prop :=
  forall s, snd (fst (m s)) = s.

(** The clear button was pressed and the server acknowledged. *)
Definition cleared (e : env) (ev : event) (s : session) : Prop :=
  ev = ClearChatHistory /\
  exists id, live_session_id s = Some id /\ clear_session (srv e) id = Ok true.


(** A double that is a number of the format and not below zero. *)
Definition nonneg (x : float64) : Prop :=
  Float64.valid x = true /\ Float64.leb Float64.zero x = true.

(** Every cost the server puts in the answer to a chat request is a
    non-negative number. *)
Definition costs_nonneg (e : env) : Prop :=
  forall user_address model_id message session_id r items value cost,
    srv e (chat_request user_address model_id message session_id) = Some r ->
    body r = Some (JObj items) ->
    lookup "cost" items = Some value -> py_float value = Ok cost ->
    nonneg cost.

(** The sessions the page can be in when the server behaves so. *)
Inductive reachable_nonneg : session -> Prop :=
| reachable_nonneg_initial now : reachable_nonneg (initial_session now)
| reachable_nonneg_step e ev s :
    costs_nonneg e -> reachable_nonneg s -> reachable_nonneg (step e ev s).

(** The request did not bring back a JSON body: [requests] raised, or
    [response.json()] did. *)
Definition transport_failure (v : server) (rq : request) : Prop :=
  v rq = None \/ exists r, v rq = Some r /\ body r = None.

(** A result of the form [{"error": <string>}]. *)
Definition is_error_result (j : json) : Prop :=
  exists items message, j = JObj items /\ lookup "error" items = Some (JStr message).

(** What each JSON call of the client does with the outcome of its
    request: it never raises, a transport failure becomes the error result
    with the call's own message, and a JSON body is handed back as it is. *)
Definition normalises (v : server) (rq : request) (call : result json)
    (message : string) : Prop :=
  (exists j, call = Ok j) /\
  (transport_failure v rq -> call = Ok (error_dict message)) /\
  (forall r j, v rq = Some r -> body r = Some j -> call = Ok j).

(** The roles of the data model, as the messages hold them and as the
    specification prints them. *)
Inductive message_role : Type := RoleUser | RoleAssistant.

Definition role_name (r : message_role) : string :=
  match r with RoleUser => "user" | RoleAssistant => "assistant" end.

Definition spec_role_label (r : message_role) : string :=
  match r with RoleUser => "User" | RoleAssistant => "Assistant" end.

(** A message of the data model: a dict whose role is "user" or
    "assistant" and whose content is a string. *)
Definition is_message (msg : json) (r : message_role) (content : string) : Prop :=
  exists items,
    msg = JObj items /\
    lookup "role" items = Some (JStr (role_name r)) /\
    lookup "content" items = Some (JStr content).

(** The export as the specification words it: one "<Role>: <content>"
    line per message, "User: ..." or "Assistant: ...", joined by a blank
    line. *)
Definition spec_export_line (r : message_role) (content : string) : string :=
  spec_role_label r ++ ": " ++ content.

Definition spec_export_text (fields : list (message_role * string)) : string :=
  String.concat (newline ++ newline)
    (map (fun rc => spec_export_line (fst rc) (snd rc)) fields).

(** The data of the download buttons a block shows. *)
Definition exported (r : flow unit * session * list banner) : list string :=
  flat_map (fun b => match b with Download data _ => [data] | _ => [] end)
           (shown r).

(** ** Sample inputs *)

Definition sample_now : datetime :=
  {| year := 2024; month := 1; day := 2; hour := 9; minute := 5; second := 7 |}.

(** A server that answers every request with the same status and body. *)
Definition answering (status : Z) (j : json) : server :=
  fun _ => Some {| status_code := status; body := Some j |}.

Definition sample_env (v : server) : env :=
  {| srv := v; clock := fun _ => sample_now;
     random_bits := 12345678901234567890123456789 |}.

(** The user has typed the address 0xABC and picked model 1. *)
Definition sample_session : session :=
  set_selected_model 1 (set_user_address "0xABC" (initial_session sample_now)).

(** 0.0002 as a double. *)
Definition cost_0_0002 : float64 := S754_finite false 7378697629483821 (-65).

Definition sample_answer : json :=
  JObj [("response", JStr "hi there"); ("cost", JFloat cost_0_0002)].

(** Stand-ins for the builtins in the sample runs, none of which converts a
    string to a float, formats a value that is not a string, or title-cases
    text that is not 7-bit. *)
Definition sample_float_of_str : string -> option float64 := fun _ => None.
Definition sample_str_of_json : json -> string := fun _ => "".
Definition sample_title_of_str : string -> string := fun s => s.

(** ** The script as a whole *)

(** The widget that fired the run, if one did. *)
Inductive widget : Type :=
| HealthButton
| CreditsButton
| EligibilityButton
| ClearButton
| ChatBox (prompt : string)
| ExportButton.

(** What the widgets hold in a run: the text of the address input, the
    option of the selectbox, and the widget that fired. *)
Record widgets : Type := {
  address_input : string;
  model_choice : Z;
  fired : option widget
}.

(** [AI_MODELS[model_id]['desc']], line 134. *)
Definition model_description (model_id : Z) : result string :=
  match find (fun entry => fst entry =? model_id) AI_MODELS with
  | Some entry => Ok (snd (snd entry))
  | None => Raise KeyError
  end.

(** One run of the script, from its first line to its last.  [chat_pane]
    stands for lines 186-208, the session stats and the chat pane, which read
    the session and draw it with calls into Streamlit that are not spelled
    out here; the definition [chat_pane] further down writes out lines
    196-208 over these calls.  The title, the separators and the footer
    metrics draw and do nothing else. *)
Definition run_once (chat_pane : script unit) (e : env) (w : widgets) : script unit :=
  _ <- lift (check_health (srv e)) ;;                              (* 105-109 *)
  modify (set_user_address (address_input w)) ;;                   (* 118-124 *)
  modify (set_selected_model (model_choice w)) ;;                  (* 128-133 *)
  _ <- lift (model_description (model_choice w)) ;;                (* 134 *)
  match fired w with Some HealthButton => on_health_check e | _ => ret tt end ;;
  match fired w with Some CreditsButton => on_check_credits e | _ => ret tt end ;;
  match fired w with Some EligibilityButton => on_check_eligibility e | _ => ret tt end ;;
  match fired w with Some ClearButton => on_clear_chat_history e | _ => ret tt end ;;
  chat_pane ;;                                                     (* 186-208 *)
  match fired w with Some (ChatBox prompt) => on_chat_input e prompt | _ => ret tt end ;;
  match fired w with Some ExportButton => on_export_chat (clock e 0) | _ => ret tt end ;;
  auto_refresh e.                                                  (* 280-286 *)

(** The widgets of the run that [st.rerun()] starts: same values, nothing
    fired. *)
Definition settled (w : widgets) : widgets :=
  {| address_input := address_input w; model_choice := model_choice w;
     fired := None |}.

(** A run and, when it asked for one, the rerun, which meets the server and
    the clock anew. *)
Definition react (chat_pane : script unit) (e e' : env) (w : widgets)
    (s : session) : session :=
  let r := run_once chat_pane e w s in
  match ended r with
  | Rerun => final (run_once chat_pane e' (settled w) (final r))
  | _ => final r
  end.

(** The session once the values of the widgets are stored. *)
Definition stored (w : widgets) (s : session) : session :=
  set_selected_model (model_choice w) (set_user_address (address_input w) s).

(** The three calls into Streamlit of the chat pane, which are not spelled
    out here: what each does with the value it is given. *)
Record streamlit : Type := {
  st_chat_message : json -> result unit;
  st_write : json -> result unit;
  st_caption : json -> result unit
}.

(** Lines 200-206, one message of the chat pane. *)
Definition show_message (st : streamlit) (message : json) : result unit :=
  rbind (Py.getitem message "role") (fun role =>
  rbind (st_chat_message st role) (fun _ =>
  rbind (Py.getitem message "content") (fun content =>
  rbind (st_write st content) (fun _ =>
  rbind (Py.contains_key "timestamp" message) (fun has_timestamp =>
  if has_timestamp : bool then
    rbind (Py.getitem message "timestamp") (fun timestamp =>
    st_caption st timestamp)
  else Ok tt))))).

(** Lines 196-208, the chat pane (the session stats of lines 186-190, above
    it, format numbers the session always holds). *)
Definition chat_pane (st : streamlit) : script unit :=
  (history <- gets chat_history ;;
   if Py.truthy history then
     messages <- lift (Py.iter history) ;;
     _ <- lift (map_result (show_message st) messages) ;;
     ret tt
   else ret tt)%script.

(** ** Vocabulary of the further properties *)

(** The answer is a JSON object with a "response" entry. *)
Definition answered (response : json) : bool :=
  match response with
  | JObj items => has_key "response" items
  | _ => false
  end.

(** The fetched history the refresh block stores, if it stores one. *)
Definition history_to_store (history_data local : json) : option json :=
  match Py.contains_key "history" history_data with
  | Ok true =>
      match Py.getitem history_data "history" with
      | Ok history =>
          match Py.len history, Py.len local with
          | Ok n, Ok m => if n >? m then Some history else None
          | _, _ => None
          end
      | Raise _ => None
      end
  | _ => None
  end.

(** A message the export can render: a dict with a role that is a string
    and a content. *)
Definition renderable (msg : json) : Prop :=
  exists items role content,
    msg = JObj items /\
    lookup "role" items = Some (JStr role) /\
    lookup "content" items = Some content.

(** A time of day. *)
Definition time_of_day (t : datetime) : Prop :=
  0 <= hour t < 24 /\ 0 <= minute t < 60 /\ 0 <= second t < 60.

(** A block that keeps a property of the session. *)
Definition keeps (P : session -> Prop) {A} (m : script A) : Prop :=
  forall s, P s -> P (snd (fst (m s))).

(** The session after an acknowledged clear. *)
Definition reset (s : session) : session :=
  set_message_count 0
    (set_total_cost Float64.zero
       (set_session_id None (set_chat_history (JArr []) s))).

(** ** Sample inputs for the further properties *)

(** A chat pane that draws and stops nothing. *)
Definition sample_pane : script unit := ret tt.

(** Calls into Streamlit that draw and raise nothing. *)
Definition sample_streamlit : streamlit :=
  {| st_chat_message := fun _ => Ok tt;
     st_write := fun _ => Ok tt;
     st_caption := fun _ => Ok tt |}.

Definition sample_widgets (fired : option widget) : widgets :=
  {| address_input := "0xABC"; model_choice := 1; fired := fired |}.

Definition sample_id : string := "00000000-27e4-4b32-86be-c9b16e398115".

(** The sample session once a chat submission has stored its id. *)
Definition sample_session_with_id : session :=
  set_session_id (Some sample_id) sample_session.

(** * Properties *)

(** ** The API calls *)

Ltac unfold_api :=
  unfold check_health, check_eligibility, get_credits, get_models,
    send_chat_message, get_chat_history, clear_session,
    try_except, rbind, requests_send, response_json.

Ltac unfold_script :=
  unfold final, shown, ended, ending_of, bind, lift, gets, modify, show, ret,
    rerun, try_pass.

Lemma clear_session_total (v : server) (id : string) :
  exists b : bool, clear_session v id = Ok b.
Proof.
  unfold_api. destruct (v (clear_request id)) as [r|]; eauto.
Qed.

Lemma send_chat_message_total (v : server) (a : string) (m : Z) (msg id : string) :
  exists j, send_chat_message v a m msg id = Ok j.
Proof.
  unfold_api. destruct (v (chat_request a m msg id)) as [r|]; [|eauto].
  destruct (body r); eauto.
Qed.

Lemma get_chat_history_total (v : server) (id : string) :
  exists j, get_chat_history v id = Ok j.
Proof.
  unfold_api. destruct (v (history_request id)) as [r|]; [|eauto].
  destruct (body r); eauto.
Qed.

(** ** Clearing the session *)

Lemma on_clear_acknowledged (e : env) (s : session) (id : string) :
  live_session_id s = Some id ->
  clear_session (srv e) id = Ok true ->
  on_clear_chat_history e s =
    (Halt RerunRequested,
     set_message_count 0
       (set_total_cost Float64.zero
          (set_session_id None (set_chat_history (JArr []) s))),
     [ChatCleared]).
Proof.
  intros Hlive Hclear. unfold on_clear_chat_history. unfold_script.
  rewrite Hlive, Hclear. reflexivity.
Qed.

Lemma on_clear_refused (e : env) (s : session) (id : string) :
  live_session_id s = Some id ->
  clear_session (srv e) id = Ok false ->
  on_clear_chat_history e s = (Continue tt, s, [ClearFailed]).
Proof.
  intros Hlive Hclear. unfold on_clear_chat_history. unfold_script.
  rewrite Hlive, Hclear. reflexivity.
Qed.

Lemma on_clear_no_session (e : env) (s : session) :
  live_session_id s = None ->
  on_clear_chat_history e s = (Continue tt, s, []).
Proof.
  intros Hlive. unfold on_clear_chat_history. unfold_script.
  rewrite Hlive. reflexivity.
Qed.

(** C1: the button handler calls [clear_session] on the live session id and
    the call answers with a boolean.  When it answers [True], the session id
    is absent, the messages are empty, the total cost is 0.0 and the message
    count is 0 afterwards; when it answers [False], these four fields are
    what they were before the call, and the failure is shown. *)
Theorem clear_session_is_atomic (e : env) (s : session) (id : string) :
  live_session_id s = Some id ->
  let r := on_clear_chat_history e s in
  exists acknowledged : bool,
    clear_session (srv e) id = Ok acknowledged /\
    (acknowledged = true ->
       session_id (final r) = None /\
       chat_history (final r) = JArr [] /\
       total_cost (final r) = Float64.zero /\
       message_count (final r) = 0) /\
    (acknowledged = false ->
       session_id (final r) = session_id s /\
       chat_history (final r) = chat_history s /\
       total_cost (final r) = total_cost s /\
       message_count (final r) = message_count s /\
       shown r = [ClearFailed]).
Proof.
  intros Hlive r. subst r.
  destruct (clear_session_total (srv e) id) as [b Hb].
  exists b. split; [exact Hb|]. split; intros ->.
  - rewrite (on_clear_acknowledged e s id Hlive Hb). cbn. auto.
  - rewrite (on_clear_refused e s id Hlive Hb). cbn. auto.
Qed.

(** ** Reconciliation with the history of the server *)

Lemma auto_refresh_history (e : env) (s : session) (id : string)
    (items : list (string * json)) (history : json) (n m : Z) :
  live_session_id s = Some id ->
  get_chat_history (srv e) id = Ok (JObj items) ->
  lookup "history" items = Some history ->
  Py.len history = Ok n ->
  Py.len (chat_history s) = Ok m ->
  final (auto_refresh e s) = if n >? m then set_chat_history history s else s.
Proof.
  intros Hlive Hget Hlook Hn Hm. unfold auto_refresh. unfold_script.
  rewrite Hlive, Hget. cbn. unfold has_key. rewrite Hlook, Hn, Hm. cbn.
  destruct (n >? m); reflexivity.
Qed.

(** C7: when the fetched history is longer than the local messages, the
    local messages become the fetched history as a whole; when it is no
    longer, the session is left as it was. *)
Theorem reconciliation_replaces_iff_longer (e : env) (s : session) (id : string)
    (items : list (string * json)) (history : json) (n m : Z) :
  live_session_id s = Some id ->
  get_chat_history (srv e) id = Ok (JObj items) ->
  lookup "history" items = Some history ->
  Py.len history = Ok n ->
  Py.len (chat_history s) = Ok m ->
  (m < n -> final (auto_refresh e s) = set_chat_history history s) /\
  (n <= m -> final (auto_refresh e s) = s).
Proof.
  intros Hlive Hget Hlook Hn Hm.
  rewrite (auto_refresh_history e s id items history n m Hlive Hget Hlook Hn Hm).
  split; intros H.
  - apply Z.gtb_lt in H. rewrite H. reflexivity.
  - destruct (n >? m) eqn:E; [apply Z.gtb_lt in E; lia | reflexivity].
Qed.

Lemma auto_refresh_frame (e : env) (s : session) :
  final (auto_refresh e s) = s \/
  exists history id,
    live_session_id s = Some id /\
    final (auto_refresh e s) = set_chat_history history s.
Proof.
  unfold auto_refresh. unfold_script.
  destruct (live_session_id s) as [id|]; [|left; reflexivity].
  destruct (get_chat_history_total (srv e) id) as [hd ->].
  destruct (Py.contains_key "history" hd) as [[|]|]; try (left; reflexivity).
  destruct (Py.getitem hd "history") as [h|]; [|left; reflexivity].
  destruct (Py.len h) as [n|]; [|left; reflexivity].
  destruct (Py.len (chat_history s)) as [m|]; [|left; reflexivity].
  destruct (n >? m); [right; exists h, id; split; reflexivity | left; reflexivity].
Qed.

(** C10: reconciliation leaves the session id, the total cost, the message
    count, the user address and the selected model as they were, whether or
    not it replaces the messages. *)
Theorem reconciliation_only_touches_messages (e : env) (s : session) :
  let s' := final (auto_refresh e s) in
  session_id s' = session_id s /\
  total_cost s' = total_cost s /\
  message_count s' = message_count s /\
  user_address s' = user_address s /\
  selected_model s' = selected_model s.
Proof.
  cbv zeta. destruct (auto_refresh_frame e s) as [-> | (h & id & _ & ->)]; cbn; auto.
Qed.

(** ** The chat block *)

Lemma chat_prepare_on_messages (e : env) (prompt : string) (l : list json)
    (s : session) :
  chat_history s = JArr l ->
  chat_prepare e prompt s =
    (Continue (session_id_to_send e s), session_at_call e prompt l s, []).
Proof.
  intros Hl. unfold chat_prepare, session_id_to_send, session_at_call.
  unfold_script. rewrite Hl. cbn.
  unfold live_session_id at 1. cbn. fold (live_session_id s).
  destruct (live_session_id s); reflexivity.
Qed.

Lemma bind_shown_nil {A} (m : script A) (s : session) :
  (let '(f, s2, shown2) := m s in (f, s2, [] ++ shown2)) = m s.
Proof. destruct (m s) as [[f s2] sh]. reflexivity. Qed.

Lemma on_chat_input_calls (e : env) (prompt : string) (l : list json)
    (s : session) (response : json) :
  prompt <> "" -> user_address s <> "" ->
  chat_history s = JArr l ->
  send_chat_message (srv e) (user_address s) (selected_model s) prompt
    (session_id_to_send e s) = Ok response ->
  on_chat_input e prompt s =
    chat_complete e response (session_at_call e prompt l s).
Proof.
  intros Hp Ha Hl Hsend. unfold on_chat_input.
  apply String.eqb_neq in Hp, Ha. rewrite Hp.
  unfold bind at 1. unfold gets at 1. rewrite Ha.
  unfold bind at 1. rewrite (chat_prepare_on_messages e prompt l s Hl).
  unfold bind at 1. unfold gets at 1.
  replace (selected_model (session_at_call e prompt l s)) with (selected_model s)
    by (unfold session_at_call; destruct (live_session_id s); reflexivity).
  unfold bind at 1. rewrite Hsend. unfold lift at 1. cbn [app].
  destruct (chat_complete e response (session_at_call e prompt l s)) as [[f s2] sh].
  reflexivity.
Qed.

Lemma chat_complete_answer (e : env) (s1 : session) (l1 : list json)
    (items : list (string * json)) (content : json) :
  chat_history s1 = JArr l1 ->
  lookup "response" items = Some content ->
  let appended :=
    set_chat_history
      (JArr (l1 ++ [assistant_message content (format_timestamp (clock e 2))])) s1 in
  chat_complete e (JObj items) s1 =
    match lookup "cost" items with
    | None => (Halt RerunRequested, appended, [])
    | Some value =>
        match py_float value with
        | Ok cost =>
            (Halt RerunRequested,
             set_total_cost (Float64.add (total_cost s1) cost) appended,
             [QueryCost cost])
        | Raise x => (Halt (Unhandled x), appended, [])
        end
    end.
Proof.
  intros Hl Hr appended. subst appended. unfold chat_complete. unfold_script.
  cbn. unfold has_key. rewrite Hr, Hl. cbn.
  destruct (lookup "cost" items) as [v|]; [|reflexivity].
  destruct (py_float v); reflexivity.
Qed.

Lemma chat_complete_error (e : env) (s1 : session) (items : list (string * json)) :
  lookup "response" items = None ->
  chat_complete e (JObj items) s1 =
    (Continue tt, s1,
     [ErrorBanner match lookup "error" items with
                  | Some message => message
                  | None => JStr "Failed to get AI response"
                  end]).
Proof.
  intros Hr. unfold chat_complete. unfold_script. cbn. unfold has_key.
  rewrite Hr. reflexivity.
Qed.


(** C5: when the answer carries no response (an error result), the user
    message appended before the call is still in the messages, the total
    cost is what it was, and the block ends normally with the error shown
    in a banner. *)
Theorem chat_error_is_shown_not_rolled_back (e : env) (s : session)
    (prompt : string) (l : list json) (items : list (string * json)) :
  prompt <> "" -> user_address s <> "" ->
  chat_history s = JArr l ->
  send_chat_message (srv e) (user_address s) (selected_model s) prompt
    (session_id_to_send e s) = Ok (JObj items) ->
  lookup "response" items = None ->
  let r := on_chat_input e prompt s in
  chat_history (final r) =
    JArr (l ++ [user_message prompt (format_timestamp (clock e 0))]) /\
  total_cost (final r) = total_cost s /\
  ended r = Completed /\
  shown r = [ErrorBanner match lookup "error" items with
                         | Some message => message
                         | None => JStr "Failed to get AI response"
                         end].
Proof.
  intros Hp Ha Hl Hsend Hnone r. subst r.
  rewrite (on_chat_input_calls e prompt l s (JObj items) Hp Ha Hl Hsend).
  rewrite (chat_complete_error e _ items Hnone). cbn.
  unfold session_at_call. destruct (live_session_id s); cbn; auto.
Qed.

(** A transport failure is such an error result. *)
Lemma send_chat_message_unreachable (v : server) (a : string) (m : Z)
    (msg id : string) :
  v (chat_request a m msg id) = None ->
  send_chat_message v a m msg id = Ok (error_dict "Unable to send message").
Proof. intros H. unfold_api. rewrite H. reflexivity. Qed.

(** ** Session identifiers *)

Lemma length_append (a b : string) :
  String.length (a ++ b) = (String.length a + String.length b)%nat.
Proof. induction a as [|c a IH]; cbn; [reflexivity | now rewrite IH]. Qed.

Lemma length_substring (s : string) :
  forall n m : nat, (n + m <= String.length s)%nat ->
  String.length (substring n m s) = m.
Proof.
  induction s as [|c s IH]; intros n m H; cbn in H.
  - assert (n = 0%nat) by lia. assert (m = 0%nat) by lia. subst. reflexivity.
  - destruct n as [|n]; destruct m as [|m]; cbn; try reflexivity.
    + rewrite IH by lia. reflexivity.
    + apply IH. lia.
    + apply IH. lia.
Qed.

Lemma length_hex (n : nat) : forall i, String.length (Uuid.hex n i) = n.
Proof.
  induction n as [|n IH]; intros i; cbn [Uuid.hex]; [reflexivity|].
  rewrite length_append, IH. cbn. lia.
Qed.

Lemma uuid_to_str_length (u : Z) : String.length (Uuid.to_str u) = 36%nat.
Proof.
  unfold Uuid.to_str. cbv zeta.
  pose proof (length_hex 32 u) as Hh.
  repeat rewrite length_append.
  repeat rewrite length_substring by (rewrite Hh; lia).
  reflexivity.
Qed.

Lemma uuid_to_str_nonempty (u : Z) : Uuid.to_str u <> "".
Proof.
  intros H. pose proof (uuid_to_str_length u) as L. rewrite H in L. discriminate L.
Qed.

Lemma tidy_live (s : session) : tidy s -> live_session_id s = session_id s.
Proof.
  intros [Hne _]. unfold live_session_id.
  destruct (session_id s) as [id|]; [|reflexivity].
  destruct (String.eqb_spec id ""); [|reflexivity].
  exfalso. exact (Hne id eq_refl e).
Qed.

(** The chat block either leaves the session alone (nothing to send, or the
    messages are not a list) or calls the server from [session_at_call]. *)
Lemma on_chat_input_cases (e : env) (prompt : string) (s : session) :
  final (on_chat_input e prompt s) = s \/
  exists l response,
    prompt <> "" /\ user_address s <> "" /\ chat_history s = JArr l /\
    send_chat_message (srv e) (user_address s) (selected_model s) prompt
      (session_id_to_send e s) = Ok response /\
    on_chat_input e prompt s =
      chat_complete e response (session_at_call e prompt l s).
Proof.
  destruct (String.eqb_spec prompt "") as [Hp|Hp].
  { left. unfold on_chat_input. subst prompt. reflexivity. }
  destruct (String.eqb_spec (user_address s) "") as [Ha|Ha].
  { left. unfold on_chat_input. apply String.eqb_neq in Hp. rewrite Hp.
    unfold_script. rewrite Ha. reflexivity. }
  destruct (chat_history s) as [ | | | | |l| ] eqn:Hl;
    try (left; unfold on_chat_input, chat_prepare;
         apply String.eqb_neq in Hp, Ha; rewrite Hp; unfold_script;
         rewrite Ha, Hl; reflexivity).
  right.
  destruct (send_chat_message_total (srv e) (user_address s) (selected_model s)
              prompt (session_id_to_send e s)) as [response Hsend].
  exists l, response. repeat split; auto.
  apply on_chat_input_calls; auto.
Qed.

(** The second half of the chat block touches the messages and the total
    cost only, and the messages only by appending the answer. *)
Lemma chat_complete_cases (e : env) (response : json) (s1 : session) :
  final (chat_complete e response s1) = s1 \/
  exists l1 items content,
    chat_history s1 = JArr l1 /\ response = JObj items /\
    lookup "response" items = Some content /\
    let appended :=
      set_chat_history
        (JArr (l1 ++ [assistant_message content (format_timestamp (clock e 2))]))
        s1 in
    (final (chat_complete e response s1) = appended \/
     exists cost,
       returned_cost items = Some cost /\
       final (chat_complete e response s1) =
         set_total_cost (Float64.add (total_cost s1) cost) appended).
Proof.
  destruct response as [ | | | |str|arr|items];
    try (left; reflexivity).
  - left. unfold chat_complete. unfold_script. cbn.
    destruct (contains "response" str);
      [destruct (Py.append (chat_history s1))|]; reflexivity.
  - left. unfold chat_complete. unfold_script. cbn.
    destruct (existsb (is_str "response") arr);
      [destruct (Py.append (chat_history s1))|]; reflexivity.
  - destruct (lookup "response" items) as [content|] eqn:Hr.
    + destruct (chat_history s1) as [ | | | | |l1| ] eqn:Hl;
        try (left; unfold chat_complete; unfold_script; cbn; unfold has_key;
             rewrite Hr, Hl; reflexivity).
      right. exists l1, items, content. repeat split; auto.
      cbv zeta.
      rewrite (chat_complete_answer e s1 l1 items content Hl Hr).
      unfold returned_cost.
      destruct (lookup "cost" items) as [v|]; [|left; reflexivity].
      destruct (py_float v) as [c|x]; [|left; reflexivity].
      right. exists c. split; reflexivity.
    + left. rewrite (chat_complete_error e s1 items Hr). reflexivity.
Qed.

(** ** Blocks that only read *)

Lemma silent_ret {A} (a : A) : silent (ret a).
Proof. intros s. reflexivity. Qed.

Lemma silent_lift {A} (r : result A) : silent (lift r).
Proof. intros s. unfold lift. destruct r; reflexivity. Qed.

Lemma silent_gets {A} (f : session -> A) : silent (gets f).
Proof. intros s. reflexivity. Qed.

Lemma silent_show (b : banner) : silent (show b).
Proof. intros s. reflexivity. Qed.

Lemma silent_bind {A B} (m : script A) (k : A -> script B) :
  silent m -> (forall a, silent (k a)) -> silent (bind m k).
Proof.
  intros Hm Hk s. unfold bind. specialize (Hm s).
  destruct (m s) as [[[a|h] s1] sh1]; cbn in Hm; subst s1; [|reflexivity].
  specialize (Hk a s). destruct (k a s) as [[f s2] sh2]. exact Hk.
Qed.

Ltac silence :=
  repeat first
    [ apply silent_ret | apply silent_lift | apply silent_gets | apply silent_show
    | apply silent_bind
    | match goal with
      | |- forall _, _ => intro
      | |- silent (if ?b then _ else _) => destruct b
      | |- silent (match ?x with _ => _ end) => destruct x
      end ].

Lemma on_health_check_silent (e : env) : silent (on_health_check e).
Proof. unfold on_health_check. silence. Qed.

Lemma on_check_credits_silent (e : env) : silent (on_check_credits e).
Proof. unfold on_check_credits. silence. Qed.

Lemma on_check_eligibility_silent (e : env) : silent (on_check_eligibility e).
Proof. unfold on_check_eligibility. silence. Qed.

Lemma on_export_chat_silent (now : datetime) : silent (on_export_chat now).
Proof. unfold on_export_chat. silence. Qed.

(** The clear block, case by case. *)
Lemma on_clear_cases (e : env) (s : session) :
  final (on_clear_chat_history e s) = s \/
  (cleared e ClearChatHistory s /\
   final (on_clear_chat_history e s) =
     set_message_count 0
       (set_total_cost Float64.zero
          (set_session_id None (set_chat_history (JArr []) s)))).
Proof.
  destruct (live_session_id s) as [id|] eqn:Hlive.
  - destruct (clear_session_total (srv e) id) as [[|] Hb].
    + right. split.
      * split; [reflexivity|]. exists id. auto.
      * rewrite (on_clear_acknowledged e s id Hlive Hb). reflexivity.
    + left. rewrite (on_clear_refused e s id Hlive Hb). reflexivity.
  - left. rewrite (on_clear_no_session e s Hlive). reflexivity.
Qed.

(** ** Every reaction of the page, case by case *)

Lemma step_cases (e : env) (ev : event) (s : session) :
  step e ev s = s \/
  (exists address, step e ev s = set_user_address address s) \/
  (exists model_id, step e ev s = set_selected_model model_id s) \/
  (cleared e ev s /\
   step e ev s =
     set_message_count 0
       (set_total_cost Float64.zero
          (set_session_id None (set_chat_history (JArr []) s)))) \/
  (exists history id,
      live_session_id s = Some id /\ step e ev s = set_chat_history history s) \/
  (exists prompt l response,
      ev = ChatInput prompt /\
      prompt <> "" /\ user_address s <> "" /\ chat_history s = JArr l /\
      send_chat_message (srv e) (user_address s) (selected_model s) prompt
        (session_id_to_send e s) = Ok response /\
      step e ev s =
        final (chat_complete e response (session_at_call e prompt l s))).
Proof.
  unfold step. destruct ev as [a|m| | | | |prompt| | ]; cbn [handle].
  - right. left. exists a. reflexivity.
  - right. right. left. exists m. reflexivity.
  - left. apply on_health_check_silent.
  - left. apply on_check_credits_silent.
  - left. apply on_check_eligibility_silent.
  - destruct (on_clear_cases e s) as [H | [Hc H]]; [left; exact H|].
    right. right. right. left. split; assumption.
  - destruct (on_chat_input_cases e prompt s)
      as [H | (l & response & Hp & Ha & Hl & Hsend & Hrun)]; [left; exact H|].
    do 5 right. exists prompt, l, response. rewrite Hrun. repeat split; auto.
  - left. apply on_export_chat_silent.
  - destruct (auto_refresh_frame e s) as [H | (h & id & Hlive & H)]; [left; exact H|].
    do 4 right. left. exists h, id. split; assumption.
Qed.

Lemma session_at_call_fields (e : env) (prompt : string) (l : list json)
    (s : session) :
  let s1 := session_at_call e prompt l s in
  chat_history s1 =
    JArr (l ++ [user_message prompt (format_timestamp (clock e 0))]) /\
  total_cost s1 = total_cost s /\
  message_count s1 = message_count s + 1 /\
  user_address s1 = user_address s /\
  selected_model s1 = selected_model s /\
  (tidy s -> session_id s1 = Some (session_id_to_send e s)).
Proof.
  cbv zeta. unfold session_at_call, session_id_to_send.
  destruct (live_session_id s) as [id|] eqn:Hlive; cbn; repeat split; auto.
  intros Ht. rewrite <- (tidy_live s Ht). exact Hlive.
Qed.

Lemma chat_complete_frame (e : env) (response : json) (s1 : session) :
  let s2 := final (chat_complete e response s1) in
  session_id s2 = session_id s1 /\
  message_count s2 = message_count s1 /\
  user_address s2 = user_address s1 /\
  selected_model s2 = selected_model s1 /\
  (chat_history s2 = chat_history s1 \/
   exists l1 x, chat_history s1 = JArr l1 /\ chat_history s2 = JArr (l1 ++ [x])).
Proof.
  cbv zeta.
  destruct (chat_complete_cases e response s1)
    as [-> | (l1 & items & content & Hl & _ & _ & [-> | (c & _ & ->)])];
    cbn; repeat split; auto; right; eauto.
Qed.

Lemma tidy_initial (now : datetime) : tidy (initial_session now).
Proof. split; cbn; [discriminate | reflexivity]. Qed.

Lemma tidy_step (e : env) (ev : event) (s : session) :
  tidy s -> tidy (step e ev s).
Proof.
  intros Ht. pose proof Ht as [Hne Hnil].
  destruct (step_cases e ev s)
    as [-> | [[a ->] | [[m ->] | [[_ ->] | [(h & id & Hlive & ->) |
        (prompt & l & response & _ & _ & _ & _ & _ & ->)]]]]]; auto.
  - split; cbn; [discriminate | reflexivity].
  - split; cbn; [exact Hne|]. intros Hnone.
    rewrite (tidy_live s Ht), Hnone in Hlive. discriminate.
  - destruct (chat_complete_frame e response (session_at_call e prompt l s))
      as (Hid & _).
    destruct (session_at_call_fields e prompt l s) as (_ & _ & _ & _ & _ & Hsid).
    rewrite (Hsid Ht) in Hid. split; rewrite Hid.
    + intros id Heq. inversion Heq. unfold session_id_to_send.
      destruct (live_session_id s) as [id'|] eqn:Hlive.
      * apply Hne. rewrite <- (tidy_live s Ht). exact Hlive.
      * apply uuid_to_str_nonempty.
    + discriminate.
Qed.

Lemma reachable_tidy (s : session) : reachable s -> tidy s.
Proof.
  induction 1 as [now | e ev s _ IH]; [apply tidy_initial | apply tidy_step, IH].
Qed.

Lemma step_keeps_session_id (e : env) (ev : event) (s : session) (id : string) :
  tidy s -> session_id s = Some id ->
  session_id (step e ev s) = Some id \/
  (cleared e ev s /\ session_id (step e ev s) = None).
Proof.
  intros Ht Hid.
  destruct (step_cases e ev s)
    as [-> | [[a ->] | [[m ->] | [[Hc ->] | [(h & id' & Hlive & ->) |
        (prompt & l & response & _ & _ & _ & _ & _ & ->)]]]]]; auto.
  left.
  destruct (chat_complete_frame e response (session_at_call e prompt l s))
    as (-> & _).
  destruct (session_at_call_fields e prompt l s) as (_ & _ & _ & _ & _ & Hsid).
  rewrite (Hsid Ht). unfold session_id_to_send.
  rewrite (tidy_live s Ht), Hid. reflexivity.
Qed.

(** C6: in a session the page can be in, a chat submission made without a
    session id draws one identifier, stores it before the server is called
    and sends it; a submission made with a session id sends that id and
    keeps it; and no reaction of the page changes a stored session id,
    except an acknowledged clear, which removes it. *)
Theorem session_id_is_created_once_and_reused (s : session) (e : env) :
  reachable s ->
  (forall prompt,
      prompt <> "" -> user_address s <> "" -> session_id s = None ->
      let id := Uuid.to_str (Uuid.uuid4 (random_bits e)) in
      let at_call := session_at_call e prompt [] s in
      chat_prepare e prompt s = (Continue id, at_call, []) /\
      session_id at_call = Some id /\
      (exists response,
          send_chat_message (srv e) (user_address s) (selected_model s) prompt id
            = Ok response /\
          on_chat_input e prompt s = chat_complete e response at_call) /\
      session_id (step e (ChatInput prompt) s) = Some id) /\
  (forall prompt id l,
      prompt <> "" -> user_address s <> "" ->
      session_id s = Some id -> chat_history s = JArr l ->
      let at_call := session_at_call e prompt l s in
      chat_prepare e prompt s = (Continue id, at_call, []) /\
      session_id at_call = Some id /\
      (exists response,
          send_chat_message (srv e) (user_address s) (selected_model s) prompt id
            = Ok response /\
          on_chat_input e prompt s = chat_complete e response at_call) /\
      session_id (step e (ChatInput prompt) s) = Some id) /\
  (forall ev id,
      session_id s = Some id ->
      session_id (step e ev s) = Some id \/
      (cleared e ev s /\ session_id (step e ev s) = None)).
Proof.
  intros Hr. pose proof (reachable_tidy s Hr) as Ht.
  assert (Hcall : forall prompt l,
             prompt <> "" -> user_address s <> "" -> chat_history s = JArr l ->
             let id := session_id_to_send e s in
             let at_call := session_at_call e prompt l s in
             chat_prepare e prompt s = (Continue id, at_call, []) /\
             session_id at_call = Some id /\
             (exists response,
                 send_chat_message (srv e) (user_address s) (selected_model s)
                   prompt id = Ok response /\
                 on_chat_input e prompt s = chat_complete e response at_call) /\
             session_id (step e (ChatInput prompt) s) = Some id).
  { intros prompt l Hp Ha Hl id at_call.
    destruct (session_at_call_fields e prompt l s) as (_ & _ & _ & _ & _ & Hsid).
    specialize (Hsid Ht). fold at_call id in Hsid.
    destruct (send_chat_message_total (srv e) (user_address s) (selected_model s)
                prompt id) as [response Hsend].
    pose proof (on_chat_input_calls e prompt l s response Hp Ha Hl Hsend) as Hrun.
    fold at_call in Hrun.
    split; [apply chat_prepare_on_messages; exact Hl|].
    split; [exact Hsid|]. split; [exists response; split; assumption|].
    unfold step. cbn [handle]. rewrite Hrun.
    destruct (chat_complete_frame e response at_call) as (-> & _). exact Hsid. }
  split; [|split].
  - intros prompt Hp Ha Hnone.
    assert (Hsend : session_id_to_send e s = Uuid.to_str (Uuid.uuid4 (random_bits e))).
    { unfold session_id_to_send. rewrite (tidy_live s Ht), Hnone. reflexivity. }
    pose proof (Hcall prompt [] Hp Ha (proj2 Ht Hnone)) as H.
    cbv zeta in H. rewrite Hsend in H. exact H.
  - intros prompt id l Hp Ha Hid Hl.
    assert (Hsend : session_id_to_send e s = id).
    { unfold session_id_to_send. rewrite (tidy_live s Ht), Hid. reflexivity. }
    pose proof (Hcall prompt l Hp Ha Hl) as H.
    cbv zeta in H. rewrite Hsend in H. exact H.
  - intros ev id Hid. apply step_keeps_session_id; assumption.
Qed.

(** ** Runs of answered chat submissions *)




(** ** Binary64 addition of non-negative numbers *)

Lemma digits2_pos_size (p : positive) : digits2_pos p = Pos.size p.
Proof. induction p as [p IH|p IH|]; cbn; [rewrite IH| rewrite IH|]; reflexivity. Qed.

Lemma digits2_log2 (p : positive) : Zpos (digits2_pos p) = Z.log2 (Zpos p) + 1.
Proof.
  rewrite digits2_pos_size.
  destruct p as [p|p|]; cbn [Z.log2 Pos.size]; try reflexivity; lia.
Qed.

Lemma Zdigits2_log2 (z : Z) : 0 < z -> Zdigits2 z = Z.log2 z + 1.
Proof. destruct z as [|p|p]; try lia. intros _. apply digits2_log2. Qed.

Lemma fexp64 (z : Z) : fexp Float64.prec Float64.emax z = Z.max (z - 53) (-1074).
Proof. reflexivity. Qed.

Lemma shr_1_div2 (mrs : shr_record) :
  0 <= shr_m mrs -> shr_m (shr_1 mrs) = shr_m mrs / 2.
Proof.
  destruct mrs as [m r s]. cbn [shr_m]. intros Hm. unfold shr_1.
  destruct m as [|[p|p|]|p]; cbn [shr_m]; try lia.
  - reflexivity.
  - rewrite Pos2Z.inj_xI. apply Z.div_unique with (r := 1); lia.
  - rewrite Pos2Z.inj_xO. apply Z.div_unique with (r := 0); lia.
  - reflexivity.
Qed.

Ltac pow2_side :=
  first [ lia
        | apply Z.pow_pos_nonneg; lia
        | apply Z.pow_nonzero; lia
        | apply Z.lt_le_incl, Z.pow_pos_nonneg; lia ].

Lemma iter_shr_1_div (n : positive) :
  forall mrs, 0 <= shr_m mrs ->
  shr_m (iter_pos shr_1 n mrs) = shr_m mrs / 2 ^ Zpos n.
Proof.
  induction n as [n IH|n IH|]; intros mrs Hm; cbn [iter_pos].
  - assert (H1 : 0 <= shr_m (shr_1 mrs)).
    { rewrite shr_1_div2 by exact Hm. apply Z.div_pos; lia. }
    assert (H2 : 0 <= shr_m (iter_pos shr_1 n (shr_1 mrs))).
    { rewrite IH by exact H1. apply Z.div_pos; [exact H1 | apply Z.pow_pos_nonneg; lia]. }
    rewrite IH by exact H2. rewrite IH by exact H1. rewrite shr_1_div2 by exact Hm.
    replace (Zpos n~1) with (1 + Zpos n + Zpos n) by lia.
    rewrite !Z.pow_add_r by lia. rewrite Z.pow_1_r.
    rewrite !Z.div_div by pow2_side.
    f_equal. ring.
  - assert (H2 : 0 <= shr_m (iter_pos shr_1 n mrs)).
    { rewrite IH by exact Hm. apply Z.div_pos; [exact Hm | apply Z.pow_pos_nonneg; lia]. }
    rewrite IH by exact H2. rewrite IH by exact Hm.
    replace (Zpos n~0) with (Zpos n + Zpos n) by lia.
    rewrite Z.pow_add_r by lia.
    rewrite Z.div_div by pow2_side.
    reflexivity.
  - rewrite shr_1_div2 by exact Hm. reflexivity.
Qed.

(** [shr] on an exact, non-negative mantissa: a floor division. *)
Lemma shr_exact (m e n : Z) :
  0 <= m ->
  let r := shr (shr_record_of_loc m loc_Exact) e n in
  shr_m (fst r) = m / 2 ^ Z.max n 0 /\ snd r = e + Z.max n 0.
Proof.
  intros Hm. unfold shr. destruct n as [|p|p]; cbn [fst snd shr_record_of_loc].
  - cbn [shr_m]. rewrite Z.max_id. cbn. rewrite Z.div_1_r. lia.
  - rewrite iter_shr_1_div by exact Hm. cbn [shr_m].
    rewrite Z.max_l by lia. auto.
  - cbn [shr_m]. rewrite Z.max_r by lia. cbn. rewrite Z.div_1_r. lia.
Qed.

Lemma round_nearest_even_bounds (m : Z) (l : location) :
  m <= round_nearest_even m l <= m + 1.
Proof.
  unfold round_nearest_even. destruct l as [|[ | | ]]; try lia.
  destruct (Z.even m); lia.
Qed.

Lemma iter_xO_pow (d : positive) (m : positive) :
  Zpos (Pos.iter xO m d) = Zpos m * 2 ^ Zpos d.
Proof.
  induction d as [|d IH] using Pos.peano_ind.
  - cbn. lia.
  - rewrite Pos.iter_succ, Pos2Z.inj_xO, IH, Pos2Z.inj_succ, Z.pow_succ_r by lia. lia.
Qed.

Lemma shl_align_spec (m : positive) (e e' : Z) :
  let r := shl_align m e e' in
  snd r = Z.min e e' /\ Zpos (fst r) = Zpos m * 2 ^ (e - Z.min e e').
Proof.
  unfold shl_align. destruct (e' - e) as [|p|p] eqn:E; cbn [fst snd].
  - rewrite Z.min_l by lia. rewrite Z.sub_diag. lia.
  - rewrite Z.min_l by lia. rewrite Z.sub_diag. lia.
  - rewrite Z.min_r by lia. split; [reflexivity|].
    rewrite iter_xO_pow. f_equal. f_equal. lia.
Qed.

Lemma log2_digits (z : Z) : 0 < z -> 2 ^ (Zdigits2 z - 1) <= z < 2 ^ Zdigits2 z.
Proof.
  intros Hz. rewrite (Zdigits2_log2 z Hz).
  replace (Z.log2 z + 1 - 1) with (Z.log2 z) by lia.
  replace (Z.log2 z + 1) with (Z.succ (Z.log2 z)) by lia.
  apply Z.log2_spec. exact Hz.
Qed.

Lemma Zdigits2_pos (z : Z) : 0 < z -> 1 <= Zdigits2 z.
Proof.
  intros Hz. rewrite (Zdigits2_log2 z Hz). pose proof (Z.log2_nonneg z). lia.
Qed.

Lemma Zdigits2_mono (a b : Z) : 0 < a -> a <= b -> Zdigits2 a <= Zdigits2 b.
Proof.
  intros Ha Hab. rewrite !Zdigits2_log2 by lia.
  pose proof (Z.log2_le_mono a b Hab). lia.
Qed.

Lemma Zdigits2_mul_pow2 (a n : Z) :
  0 < a -> 0 <= n -> Zdigits2 (a * 2 ^ n) = Zdigits2 a + n.
Proof.
  intros Ha Hn.
  assert (0 < a * 2 ^ n) by (apply Z.mul_pos_pos; [lia | apply Z.pow_pos_nonneg; lia]).
  rewrite !Zdigits2_log2 by lia. rewrite Z.log2_mul_pow2 by lia. lia.
Qed.

Lemma Zdigits2_div_pow2 (a n : Z) :
  0 < a -> 0 <= n -> n < Zdigits2 a ->
  0 < a / 2 ^ n /\ Zdigits2 (a / 2 ^ n) = Zdigits2 a - n.
Proof.
  intros Ha Hn Hlt.
  pose proof (log2_digits a Ha) as [Hlo _].
  assert (Hpos : 0 < a / 2 ^ n).
  { apply Z.div_str_pos. split; [apply Z.pow_pos_nonneg; lia|].
    apply Z.le_trans with (2 ^ (Zdigits2 a - 1)); [|exact Hlo].
    apply Z.pow_le_mono_r; lia. }
  split; [exact Hpos|].
  rewrite (Zdigits2_log2 _ Hpos), (Zdigits2_log2 a Ha) in *.
  rewrite <- Z.shiftr_div_pow2 by lia. rewrite Z.log2_shiftr by lia. lia.
Qed.

Lemma Zdigits2_succ (a b : Z) :
  0 < a -> a <= b <= a + 1 -> Zdigits2 a <= Zdigits2 b <= Zdigits2 a + 1.
Proof.
  intros Ha Hb. rewrite !Zdigits2_log2 by lia.
  pose proof (Z.log2_le_mono a b (proj1 Hb)).
  pose proof (Z.log2_le_mono b (Z.succ a) ltac:(lia)).
  pose proof (Z.log2_succ_le a). lia.
Qed.

(** Rounding a positive integer [M * 2^ez] to binary64: the result is a
    valid positive number or +infinity; its exponent is at least the
    canonical exponent of the input, and at that exponent its mantissa is
    at least the truncated input. *)
Lemma binary_round_positive (M : positive) (ez : Z) :
  -1074 <= ez ->
  let D := Zpos (digits2_pos M) + ez in
  match binary_round Float64.prec Float64.emax false M ez with
  | S754_finite false m e =>
      bounded Float64.prec Float64.emax m e = true /\
      Z.max (D - 53) (-1074) <= e /\
      (ez <= e -> e = Z.max (D - 53) (-1074) -> Zpos M / 2 ^ (e - ez) <= Zpos m)
  | S754_infinity false => True
  | _ => False
  end.
Proof.
  intros Hez D. unfold binary_round.
  pose proof (shl_align_spec M ez (fexp Float64.prec Float64.emax (Zpos (digits2_pos M) + ez)))
    as Hshl.
  fold D in Hshl |- *. rewrite fexp64 in Hshl |- *.
  destruct (shl_align M ez (Z.max (D - 53) (-1074))) as [mz e1].
  cbn [fst snd] in Hshl. destruct Hshl as [He1 Hmz].
  assert (HdM : 1 <= Zpos (digits2_pos M)) by lia.
  assert (Hdmz : Zdigits2 (Zpos mz) + e1 = D).
  { rewrite Hmz. rewrite Zdigits2_mul_pow2 by lia. cbn [Zdigits2]. lia. }
  unfold binary_round_aux, shr_fexp.
  rewrite Hdmz, fexp64.
  set (n := Z.max (D - 53) (-1074) - e1).
  assert (Hn : 0 <= n) by lia.
  pose proof (shr_exact (Zpos mz) e1 n ltac:(lia)) as Hshr. cbv zeta in Hshr.
  destruct (shr (shr_record_of_loc (Zpos mz) loc_Exact) e1 n) as [mrs' e'].
  cbn [fst snd] in Hshr. destruct Hshr as [Hm' He'].
  rewrite Z.max_l in Hm', He' by lia.
  assert (Hnlt : n < Zdigits2 (Zpos mz)) by lia.
  destruct (Zdigits2_div_pow2 (Zpos mz) n ltac:(lia) Hn Hnlt) as [Hm'pos Hdm'].
  rewrite <- Hm' in Hm'pos, Hdm'.
  set (R := round_nearest_even (shr_m mrs') (loc_of_shr_record mrs')).
  pose proof (round_nearest_even_bounds (shr_m mrs') (loc_of_shr_record mrs')) as HR.
  fold R in HR.
  pose proof (Zdigits2_succ (shr_m mrs') R Hm'pos HR) as HdR.
  rewrite fexp64.
  set (n2 := Z.max (Zdigits2 R + e' - 53) (-1074) - e').
  pose proof (shr_exact R e' n2 ltac:(lia)) as Hshr2. cbv zeta in Hshr2.
  destruct (shr (shr_record_of_loc R loc_Exact) e' n2) as [mrs'' e''].
  cbn [fst snd] in Hshr2. destruct Hshr2 as [Hm'' He''].
  assert (Hn2 : 0 <= n2) by lia.
  rewrite Z.max_l in Hm'', He'' by lia.
  assert (Hn2lt : n2 < Zdigits2 R) by lia.
  destruct (Zdigits2_div_pow2 R n2 ltac:(lia) Hn2 Hn2lt) as [Hm''pos Hdm''].
  rewrite <- Hm'' in Hm''pos, Hdm''.
  destruct (shr_m mrs'') as [|m|m] eqn:Em; try lia.
  destruct (e'' <=? Float64.emax - Float64.prec) eqn:Ee; [|exact I].
  split; [|split].
  - unfold bounded, canonical_mantissa. rewrite Ee, fexp64.
    cbn [Zdigits2] in Hdm''. rewrite andb_true_r. apply Z.eqb_eq. lia.
  - lia.
  - intros Hle Heq. assert (n2 = 0) by lia.
    assert (e1 = ez) by lia. subst e1.
    replace (e'' - ez) with n by lia.
    replace (ez - Z.min ez (Z.max (D - 53) (-1074))) with 0 in Hmz by lia.
    rewrite Z.pow_0_r, Z.mul_1_r in Hmz. rewrite <- Hmz, <- Hm'.
    subst n2. rewrite H, Z.pow_0_r, Z.div_1_r in Hm''. lia.
Qed.

Lemma bounded_canonical (m : positive) (e : Z) :
  bounded Float64.prec Float64.emax m e = true ->
  e = Z.max (Zpos (digits2_pos m) + e - 53) (-1074).
Proof.
  unfold bounded, canonical_mantissa. rewrite fexp64.
  intros H. apply andb_true_iff in H. destruct H as [H _].
  apply Z.eqb_eq in H. lia.
Qed.

Lemma leb_finite_refl (m : positive) (e : Z) :
  Float64.leb (S754_finite false m e) (S754_finite false m e) = true.
Proof.
  unfold Float64.leb, SFleb, SFcompare. rewrite Z.compare_refl.
  change (Pos.compare_cont Eq m m) with (Pos.compare m m).
  rewrite Pos.compare_refl. reflexivity.
Qed.

Lemma add_finite_nonneg (mx : positive) (ex : Z) (mc : positive) (ec : Z) :
  bounded Float64.prec Float64.emax mx ex = true ->
  bounded Float64.prec Float64.emax mc ec = true ->
  let x := S754_finite false mx ex in
  let sum := Float64.add x (S754_finite false mc ec) in
  nonneg sum /\ Float64.leb x sum = true.
Proof.
  intros Hx Hc x sum. subst x sum.
  pose proof (bounded_canonical mx ex Hx) as Hex.
  pose proof (bounded_canonical mc ec Hc) as Hec.
  unfold Float64.add, SFadd. cbn [cond_Zopp].
  set (ez := Z.min ex ec).
  destruct (shl_align_spec mx ex ez) as [_ Hmx].
  destruct (shl_align_spec mc ec ez) as [_ Hmc].
  replace (ex - Z.min ex ez) with (ex - ez) in Hmx by lia.
  set (mx' := fst (shl_align mx ex ez)) in *.
  set (mc' := fst (shl_align mc ec ez)) in *.
  change (Zpos mx' + Zpos mc') with (Zpos (mx' + mc')).
  cbn [binary_normalize].
  pose proof (binary_round_positive (mx' + mc') ez ltac:(lia)) as Hround.
  cbv zeta in Hround.
  assert (Hpow : 0 < 2 ^ (ex - ez)) by (apply Z.pow_pos_nonneg; lia).
  assert (Hle : Zpos mx' <= Zpos (mx' + mc')) by lia.
  assert (Hdig : Zpos (digits2_pos mx) + (ex - ez) <= Zpos (digits2_pos (mx' + mc'))).
  { pose proof (Zdigits2_mono (Zpos mx') (Zpos (mx' + mc')) ltac:(lia) Hle) as Hd.
    rewrite Hmx in Hd at 1. rewrite Zdigits2_mul_pow2 in Hd by lia.
    exact Hd. }
  destruct (binary_round Float64.prec Float64.emax false (mx' + mc') ez)
    as [sz|[|]| |[|] m e]; try contradiction.
  - split; [split|]; reflexivity.
  - destruct Hround as (Hb & Hge & Hm).
    split; [split; [exact Hb | reflexivity]|].
    unfold Float64.leb, SFleb, SFcompare.
    destruct (Z.compare_spec ex e) as [Heq|Hlt|Hgt]; [|reflexivity|lia].
    subst e. specialize (Hm ltac:(lia) ltac:(lia)).
    assert (Hmxm : Zpos mx <= Zpos m).
    { apply Z.le_trans with (Zpos (mx' + mc') / 2 ^ (ex - ez)); [|exact Hm].
      apply Z.div_le_lower_bound; [exact Hpow|]. lia. }
    change (Pos.compare_cont Eq mx m) with (Pos.compare mx m).
    destruct (Pos.compare_spec mx m); try reflexivity. lia.
Qed.

(** Adding a non-negative double to a non-negative double gives a
    non-negative double that is not below the first. *)
Lemma add_nonneg (x c : float64) :
  nonneg x -> nonneg c ->
  nonneg (Float64.add x c) /\ Float64.leb x (Float64.add x c) = true.
Proof.
  intros [Hvx Hx] [Hvc Hc].
  destruct x as [sx|[|]| |[|] mx ex]; try discriminate Hx;
    destruct c as [sc|[|]| |[|] mc ec]; try discriminate Hc.
  - destruct sx, sc; repeat split; reflexivity.
  - destruct sx; repeat split; reflexivity.
  - destruct sx; repeat split; try reflexivity; exact Hvc.
  - repeat split; reflexivity.
  - repeat split; reflexivity.
  - repeat split; reflexivity.
  - repeat split; try reflexivity; try exact Hvx. apply leb_finite_refl.
  - repeat split; reflexivity.
  - apply add_finite_nonneg; assumption.
Qed.

Lemma nonneg_zero_between (x y : float64) :
  nonneg x -> Float64.leb x y = true -> Float64.eqb y Float64.zero = true ->
  Float64.eqb x Float64.zero = true.
Proof.
  intros [_ Hx] Hxy Hy.
  destruct y as [sy|[|]| |[|] my ey]; try discriminate Hy;
    destruct x as [sx|[|]| |[|] mx ex]; try discriminate Hx;
    try discriminate Hxy; reflexivity.
Qed.

(** ** The total cost *)

Lemma leb_refl_nonneg (x : float64) : nonneg x -> Float64.leb x x = true.
Proof.
  intros [_ Hx].
  destruct x as [sx|[|]| |[|] mx ex]; try discriminate Hx; try reflexivity.
  apply leb_finite_refl.
Qed.

Lemma nonneg_zero : nonneg Float64.zero.
Proof. split; reflexivity. Qed.

(** An answer that carries a cost came from the server. *)
Lemma send_chat_message_cost (v : server) (a : string) (m : Z) (msg id : string)
    (items : list (string * json)) (value : json) :
  send_chat_message v a m msg id = Ok (JObj items) ->
  lookup "cost" items = Some value ->
  exists r, v (chat_request a m msg id) = Some r /\ body r = Some (JObj items).
Proof.
  unfold_api. intros Hsend Hcost.
  destruct (v (chat_request a m msg id)) as [r|].
  - exists r. split; [reflexivity|].
    destruct (body r) as [j|].
    + inversion Hsend. reflexivity.
    + inversion Hsend. subst items. discriminate Hcost.
  - inversion Hsend. subst items. discriminate Hcost.
Qed.

Lemma step_total_cost (e : env) (ev : event) (s : session) :
  nonneg (total_cost s) -> costs_nonneg e ->
  nonneg (total_cost (step e ev s)) /\
  (Float64.leb (total_cost s) (total_cost (step e ev s)) = true \/
   cleared e ev s).
Proof.
  intros Hs He. pose proof (leb_refl_nonneg _ Hs) as Hrefl.
  destruct (step_cases e ev s)
    as [-> | [[a ->] | [[m ->] | [[Hc ->] | [(h & id' & Hlive & ->) |
        (prompt & l & response & _ & _ & _ & _ & Hsend & ->)]]]]]; cbn; auto.
  - split; [apply nonneg_zero | right; exact Hc].
  - destruct (session_at_call_fields e prompt l s) as (_ & Htot & _).
    destruct (chat_complete_cases e response (session_at_call e prompt l s))
      as [-> | (l1 & items & content & _ & -> & _ & [-> | (c & Hcost & ->)])];
      cbn; rewrite ?Htot; auto.
    unfold returned_cost in Hcost.
    destruct (lookup "cost" items) as [value|] eqn:Hv; [|discriminate].
    destruct (py_float value) as [c'|] eqn:Hf; [|discriminate].
    inversion Hcost. subst c'.
    destruct (send_chat_message_cost _ _ _ _ _ items value Hsend Hv) as (r & Hr & Hb).
    pose proof (He _ _ _ _ r items value c Hr Hb Hv Hf) as Hc.
    destruct (add_nonneg (total_cost s) c Hs Hc) as [Hn Hle]. auto.
Qed.

Lemma reachable_nonneg_total_cost (s : session) :
  reachable_nonneg s -> nonneg (total_cost s).
Proof.
  induction 1 as [now | e ev s He _ IH]; [apply nonneg_zero|].
  apply step_total_cost; assumption.
Qed.

Lemma cleared_step (e : env) (ev : event) (s : session) :
  cleared e ev s ->
  step e ev s =
    set_message_count 0
      (set_total_cost Float64.zero
         (set_session_id None (set_chat_history (JArr []) s))).
Proof.
  intros [-> (id & Hlive & Hclear)]. unfold step. cbn [handle].
  rewrite (on_clear_acknowledged e s id Hlive Hclear). reflexivity.
Qed.

(** C2, amended: as long as every cost the server returns is a non-negative
    number, no reaction of the page other than an acknowledged clear lowers
    the total cost; an acknowledged clear sets it to 0.0, and it is the only
    reaction after which a total cost that was not zero is zero. *)
Theorem total_cost_never_decreases_under_nonneg_costs (s : session) (e : env)
    (ev : event) :
  reachable_nonneg s -> costs_nonneg e ->
  let s' := step e ev s in
  (cleared e ev s -> total_cost s' = Float64.zero) /\
  (~ cleared e ev s -> Float64.leb (total_cost s) (total_cost s') = true) /\
  (Float64.eqb (total_cost s') Float64.zero = true ->
   Float64.eqb (total_cost s) Float64.zero = true \/ cleared e ev s).
Proof.
  intros Hr He s'. subst s'.
  pose proof (reachable_nonneg_total_cost s Hr) as Hs.
  destruct (step_total_cost e ev s Hs He) as [_ Hstep].
  split; [|split].
  - intros Hc. rewrite (cleared_step e ev s Hc). reflexivity.
  - intros Hnc. destruct Hstep as [Hle | Hc]; [exact Hle | contradiction].
  - intros Hzero. destruct Hstep as [Hle | Hc]; [left | right; exact Hc].
    exact (nonneg_zero_between _ _ Hs Hle Hzero).
Qed.

(** ** Faults of the transport *)

Lemma json_call_normalises (v : server) (rq : request) (message : string) :
  normalises v rq
    (try_except (rbind (requests_send v rq) response_json)
                (Ok (error_dict message)))
    message.
Proof.
  unfold normalises, transport_failure, try_except, rbind, requests_send,
    response_json.
  destruct (v rq) as [r|] eqn:Hv.
  - destruct (body r) as [j|] eqn:Hb.
    + split; [eauto|]. split.
      * intros [H | (r' & Hr' & Hnone)]; [discriminate|].
        inversion Hr'. subst r'. rewrite Hb in Hnone. discriminate.
      * intros r' j' Hr' Hj'. inversion Hr'. subst r'. rewrite Hb in Hj'.
        inversion Hj'. reflexivity.
    + split; [eauto|]. split; [reflexivity|].
      intros r' j' Hr' Hj'. inversion Hr'. subst r'. rewrite Hb in Hj'.
      discriminate.
  - split; [eauto|]. split; [reflexivity|]. discriminate.
Qed.

(** C8, amended: none of the API calls of the client raises; when the
    request fails in transport (no connection, timeout, or a body that is
    not JSON) the call returns the error result with its own message
    ([False] for [clear_session], [(False, None)] for [check_health]); when
    the server sends a JSON body the call returns that body as it is,
    whatever the status; [clear_session] returns whether the status is 200,
    and [check_health] returns the body only with status 200. *)
Theorem api_calls_normalise_transport_failures (v : server) :
  (forall a m,
      normalises v (eligibility_request a m) (check_eligibility v a m)
        "Unable to check eligibility") /\
  (forall a,
      normalises v (credits_request a) (get_credits v a)
        "Unable to fetch credits") /\
  (forall a m msg id,
      normalises v (chat_request a m msg id) (send_chat_message v a m msg id)
        "Unable to send message") /\
  (forall id,
      normalises v (history_request id) (get_chat_history v id)
        "Unable to fetch history") /\
  normalises v models_request (get_models v) "Unable to fetch models" /\
  (forall id,
      (v (clear_request id) = None -> clear_session v id = Ok false) /\
      (forall r, v (clear_request id) = Some r ->
                 clear_session v id = Ok (status_code r =? 200))) /\
  (transport_failure v health_request -> check_health v = Ok (false, None)) /\
  (forall r j, v health_request = Some r -> body r = Some j ->
               check_health v =
                 Ok (if status_code r =? 200 then (true, Some j) else (false, None))).
Proof.
  split; [intros; apply json_call_normalises|].
  split; [intros; apply json_call_normalises|].
  split; [intros; apply json_call_normalises|].
  split; [intros; apply json_call_normalises|].
  split; [apply json_call_normalises|].
  split; [|split].
  - intros id. split.
    + intros Hv. unfold_api. rewrite Hv. reflexivity.
    + intros r Hv. unfold_api. rewrite Hv. reflexivity.
  - intros [Hv | (r & Hv & Hb)]; unfold_api; rewrite Hv; [reflexivity|].
    rewrite Hb. destruct (status_code r =? 200); reflexivity.
  - intros r j Hv Hb. unfold_api. rewrite Hv, Hb.
    destruct (status_code r =? 200); reflexivity.
Qed.

(** ** Export *)

Lemma render_message_spec (msg : json) (r : message_role) (content : string) :
  is_message msg r content ->
  render_message msg = Ok (spec_export_line r content).
Proof.
  intros (items & -> & Hrole & Hcontent).
  unfold render_message, rbind. cbn [Py.getitem]. rewrite Hrole, Hcontent.
  destruct r; reflexivity.
Qed.

Lemma map_render_message_spec (msgs : list json)
    (fields : list (message_role * string)) :
  Forall2 (fun m rc => is_message m (fst rc) (snd rc)) msgs fields ->
  map_result render_message msgs =
    Ok (map (fun rc => spec_export_line (fst rc) (snd rc)) fields).
Proof.
  induction 1 as [|m rc msgs fields Hm _ IH]; cbn; [reflexivity|].
  rewrite (render_message_spec m _ _ Hm). cbn. rewrite IH. reflexivity.
Qed.

(** C9: the export block reads the messages and the clock and nothing else,
    and leaves the session as it found it; with no messages it shows the
    "nothing to export" warning and no download; with messages of the data
    model it offers for download one line per message, "User: <content>" for
    the role "user" and "Assistant: <content>" for the role "assistant",
    joined by a blank line; and the text it offers is the same for any two
    sessions with the same messages. *)
Theorem export_is_a_pure_rendering (now : datetime) (s : session) :
  final (on_export_chat now s) = s /\
  (chat_history s = JArr [] ->
   on_export_chat now s = (Continue tt, s, [NothingToExport])) /\
  (forall msgs fields,
      chat_history s = JArr msgs -> msgs <> [] ->
      Forall2 (fun m rc => is_message m (fst rc) (snd rc)) msgs fields ->
      on_export_chat now s =
        (Continue tt, s,
         [Download (spec_export_text fields)
                   ("chat_history_" ++ strftime_file now ++ ".txt")])) /\
  (forall now' s',
      chat_history s' = chat_history s ->
      exported (on_export_chat now' s') = exported (on_export_chat now s)).
Proof.
  split; [apply on_export_chat_silent|]. split; [|split].
  - intros Hl. unfold on_export_chat. unfold_script. rewrite Hl. reflexivity.
  - intros msgs fields Hl Hne Hmsgs. unfold on_export_chat. unfold_script.
    rewrite Hl. destruct msgs as [|m msgs]; [contradiction|].
    cbn [Py.truthy Py.iter].
    rewrite (map_render_message_spec _ _ Hmsgs). reflexivity.
  - intros now' s' Hsame. unfold on_export_chat, exported. unfold_script.
    rewrite Hsame. destruct (Py.truthy (chat_history s)); [|reflexivity].
    destruct (Py.iter (chat_history s)) as [messages|]; [|reflexivity].
    destruct (map_result render_message messages); reflexivity.
Qed.

(** * Further properties of the script *)

(** ** The health check *)

(** X1: [check_health] reports a healthy API, with the body, exactly when
    the server answers with status 200 and a JSON body; in every other case
    (another status, a body that is not JSON, no answer) it reports
    [(False, None)]. *)
Theorem check_health_healthy_iff (v : server) :
  (forall j,
      check_health v = Ok (true, Some j) <->
      exists r, v health_request = Some r /\ status_code r = 200 /\ body r = Some j) /\
  (check_health v = Ok (false, None) \/
   exists j, check_health v = Ok (true, Some j)).
Proof.
  unfold_api. destruct (v health_request) as [r|] eqn:Hv.
  - destruct (Z.eqb_spec (status_code r) 200) as [Hs|Hs].
    + destruct (body r) as [j0|] eqn:Hb.
      * split; [|right; exists j0; reflexivity].
        intros j. split.
        -- intros H. inversion H. subst j0. exists r. auto.
        -- intros (r' & Hr' & _ & Hj). inversion Hr'. subst r'.
           rewrite Hb in Hj. inversion Hj. reflexivity.
      * split; [|left; reflexivity].
        intros j. split; [discriminate|].
        intros (r' & Hr' & _ & Hj). inversion Hr'. subst r'.
        rewrite Hb in Hj. discriminate.
    + split; [|left; reflexivity].
      intros j. split; [discriminate|].
      intros (r' & Hr' & Hs' & _). inversion Hr'. subst r'. contradiction.
  - split; [|left; reflexivity].
    intros j. split; [discriminate|]. intros (r' & Hr' & _). discriminate.
Qed.

(** X2: the health, credits, eligibility and export blocks never change the
    session, whatever the server answers and however they end. *)
Theorem read_only_blocks_keep_session (e : env) (s : session) :
  step e HealthCheck s = s /\
  step e CheckCredits s = s /\
  step e CheckEligibility s = s /\
  step e ExportChat s = s.
Proof.
  unfold step. cbn [handle]. repeat split.
  - apply on_health_check_silent.
  - apply on_check_credits_silent.
  - apply on_check_eligibility_silent.
  - apply on_export_chat_silent.
Qed.

(** X3: what the health button shows.  On an unhealthy API it shows "not
    responding".  On a healthy API whose body is a JSON object it shows
    "healthy" and then the status of the body, "OK" when the body has none,
    and nothing more when the body is the empty object.  On a healthy API
    whose body is true but not an object (a non-empty string or list, a
    number that is not zero) it dies on [AttributeError] after showing
    "healthy". *)
Theorem health_button_outcome (e : env) (s : session) :
  let r := on_health_check e s in
  (check_health (srv e) = Ok (false, None) ->
   ended r = Completed /\ shown r = [ApiNotResponding]) /\
  (forall items,
      check_health (srv e) = Ok (true, Some (JObj items)) ->
      ended r = Completed /\
      shown r =
        ApiHealthy ::
        match items with
        | [] => []
        | _ => [HealthStatus match lookup "status" items with
                             | Some status => status
                             | None => JStr "OK"
                             end]
        end) /\
  (forall j,
      check_health (srv e) = Ok (true, Some j) ->
      (forall items, j <> JObj items) ->
      Py.truthy j = true ->
      ended r = Uncaught AttributeError /\ shown r = [ApiHealthy]).
Proof.
  cbv zeta. unfold on_health_check. unfold_script. split; [|split].
  - intros ->. split; reflexivity.
  - intros items ->. cbn. destruct items as [|kv items]; [split; reflexivity|].
    cbn. split; reflexivity.
  - intros j -> Hobj Ht. cbn. rewrite Ht.
    destruct j; try (split; reflexivity). exfalso. eapply Hobj. reflexivity.
Qed.

(** ** The credits and eligibility buttons *)

(** X4: with an address, the credits button shows the credits when the
    answer is a JSON object with a "credits" entry; it shows the "error"
    entry of the answer, or "Failed to fetch credits" when there is none,
    when the answer is an object without "credits"; and it shows "Unable to
    fetch credits" when the transport fails.  In all these cases it ends
    normally. *)
Theorem credits_button_outcome (e : env) (s : session) :
  user_address s <> "" ->
  let r := on_check_credits e s in
  (forall items credits,
      get_credits (srv e) (user_address s) = Ok (JObj items) ->
      lookup "credits" items = Some credits ->
      ended r = Completed /\ shown r = [Credits credits]) /\
  (forall items,
      get_credits (srv e) (user_address s) = Ok (JObj items) ->
      lookup "credits" items = None ->
      ended r = Completed /\
      shown r = [ErrorBanner match lookup "error" items with
                             | Some message => message
                             | None => JStr "Failed to fetch credits"
                             end]) /\
  (transport_failure (srv e) (credits_request (user_address s)) ->
   ended r = Completed /\
   shown r = [ErrorBanner (JStr "Unable to fetch credits")]).
Proof.
  intros Ha r. subst r. apply String.eqb_neq in Ha.
  unfold on_check_credits. unfold_script. rewrite Ha. split; [|split].
  - intros items credits -> Hc. cbn. unfold has_key. rewrite Hc. cbn.
    rewrite ?Hc. split; reflexivity.
  - intros items -> Hc. cbn. unfold has_key. rewrite Hc. cbn. split; reflexivity.
  - intros Hf.
    destruct (json_call_normalises (srv e) (credits_request (user_address s))
                "Unable to fetch credits") as (_ & Herr & _).
    assert (Hg : get_credits (srv e) (user_address s) =
                 Ok (error_dict "Unable to fetch credits")) by exact (Herr Hf).
    rewrite Hg. cbn. split; reflexivity.
Qed.

(** X5: with an address, when the answer to the eligibility check is a JSON
    object with a "canChat" entry, the button shows "eligible" or "not
    enough credits", by the truth of that entry, with the "cost" entry of
    the answer; when the answer has "canChat" but no "cost", the block dies
    on [KeyError] and shows nothing. *)
Theorem eligibility_button_outcome (e : env) (s : session)
    (items : list (string * json)) (can_chat : json) :
  user_address s <> "" ->
  check_eligibility (srv e) (user_address s) (selected_model s) = Ok (JObj items) ->
  lookup "canChat" items = Some can_chat ->
  let r := on_check_eligibility e s in
  (forall cost,
      lookup "cost" items = Some cost ->
      ended r = Completed /\
      shown r = [if Py.truthy can_chat then Eligible cost else NotEnoughCredits cost]) /\
  (lookup "cost" items = None ->
   ended r = Uncaught KeyError /\ shown r = []).
Proof.
  intros Ha Hcall Hcan r. subst r. apply String.eqb_neq in Ha.
  unfold on_check_eligibility. unfold_script. rewrite Ha, Hcall. cbn.
  unfold has_key. rewrite Hcan. cbn. rewrite ?Hcan. split.
  - intros cost Hcost. destruct (Py.truthy can_chat); cbn; rewrite Hcost;
      split; reflexivity.
  - intros Hcost. destruct (Py.truthy can_chat); cbn; rewrite Hcost;
      split; reflexivity.
Qed.

(** ** Guards *)

(** X6: without an address the credits and eligibility buttons do nothing
    and a chat submission only shows the "address missing" banner; an empty
    prompt does nothing; without a live session id the clear button and the
    refresh block do nothing.  In none of these cases is the server asked:
    the outcome is the same against every server. *)
Theorem guards_keep_the_server_out (e : env) (s : session) :
  (user_address s = "" ->
   on_check_credits e s = (Continue tt, s, []) /\
   on_check_eligibility e s = (Continue tt, s, []) /\
   forall prompt, prompt <> "" ->
                  on_chat_input e prompt s = (Continue tt, s, [AddressMissing])) /\
  on_chat_input e "" s = (Continue tt, s, []) /\
  (live_session_id s = None ->
   on_clear_chat_history e s = (Continue tt, s, []) /\
   auto_refresh e s = (Continue tt, s, [])).
Proof.
  split; [|split].
  - intros Ha. split; [|split].
    + unfold on_check_credits. unfold_script. rewrite Ha. reflexivity.
    + unfold on_check_eligibility. unfold_script. rewrite Ha. reflexivity.
    + intros prompt Hp. apply String.eqb_neq in Hp.
      unfold on_chat_input. rewrite Hp. unfold_script. rewrite Ha. reflexivity.
  - reflexivity.
  - intros Hlive. split; [apply on_clear_no_session; exact Hlive|].
    unfold auto_refresh. unfold_script. rewrite Hlive. reflexivity.
Qed.

(** ** Chat submissions, whatever the answer *)

Lemma chat_complete_unanswered (e : env) (response : json) (s1 : session) :
  answered response = false ->
  final (chat_complete e response s1) = s1.
Proof.
  intros Hn. destruct response as [ | | | |str|arr|items];
    try reflexivity.
  - unfold chat_complete. unfold_script. cbn.
    destruct (contains "response" str);
      [destruct (Py.append (chat_history s1))|]; reflexivity.
  - unfold chat_complete. unfold_script. cbn.
    destruct (existsb (is_str "response") arr);
      [destruct (Py.append (chat_history s1))|]; reflexivity.
  - cbn in Hn. unfold has_key in Hn.
    destruct (lookup "response" items) eqn:Hr; [discriminate|].
    rewrite (chat_complete_error e s1 items Hr). reflexivity.
Qed.

Lemma chat_complete_answered (e : env) (response : json) (s1 : session)
    (l1 : list json) :
  answered response = true ->
  chat_history s1 = JArr l1 ->
  exists x,
    chat_history (final (chat_complete e response s1)) = JArr (l1 ++ [x]) /\
    message_count (final (chat_complete e response s1)) = message_count s1 /\
    last_activity (final (chat_complete e response s1)) = last_activity s1.
Proof.
  intros Ha Hl. destruct response as [ | | | | | |items]; try discriminate Ha.
  cbn in Ha. unfold has_key in Ha.
  destruct (lookup "response" items) as [content|] eqn:Hr; [|discriminate].
  exists (assistant_message content (format_timestamp (clock e 2))).
  rewrite (chat_complete_answer e s1 l1 items content Hl Hr).
  destruct (lookup "cost" items) as [v|]; [destruct (py_float v)|]; cbn; auto.
Qed.

(** X7: every chat submission that reaches the server (a prompt, an
    address, messages that are a list) adds one to the message count and
    stamps the last activity, whatever the server answers; it adds two
    messages when the answer is an object with a response, and one message,
    the user's, in every other case. *)
Theorem chat_submission_accounting (e : env) (s : session) (prompt : string)
    (l : list json) :
  prompt <> "" -> user_address s <> "" ->
  chat_history s = JArr l ->
  let s' := final (on_chat_input e prompt s) in
  message_count s' = message_count s + 1 /\
  last_activity s' = clock e 1 /\
  exists response,
    send_chat_message (srv e) (user_address s) (selected_model s) prompt
      (session_id_to_send e s) = Ok response /\
    Py.len (chat_history s') =
      Ok (Z.of_nat (List.length l) + if answered response then 2 else 1).
Proof.
  intros Hp Ha Hl s'. subst s'.
  destruct (send_chat_message_total (srv e) (user_address s) (selected_model s)
              prompt (session_id_to_send e s)) as [response Hsend].
  rewrite (on_chat_input_calls e prompt l s response Hp Ha Hl Hsend).
  destruct (session_at_call_fields e prompt l s) as (Hh & _ & Hc & _).
  assert (Hact : last_activity (session_at_call e prompt l s) = clock e 1).
  { unfold session_at_call. destruct (live_session_id s); reflexivity. }
  destruct (answered response) eqn:Hans.
  - destruct (chat_complete_answered e response _ _ Hans Hh) as (x & Hx & Hcount & Hlast).
    rewrite Hcount, Hlast, Hc, Hact. split; [reflexivity|]. split; [reflexivity|].
    exists response. split; [exact Hsend|]. rewrite Hx, Hans. cbn [Py.len].
    rewrite !length_app. cbn [List.length]. f_equal. lia.
  - rewrite (chat_complete_unanswered e response _ Hans), Hc, Hact.
    split; [reflexivity|]. split; [reflexivity|].
    exists response. split; [exact Hsend|]. rewrite Hh, Hans. cbn [Py.len].
    rewrite length_app. cbn [List.length]. f_equal. lia.
Qed.

(** X8: when the answer carries a response and a cost that [float] rejects
    (null, a list, a string that is no number, an integer too large for a
    double), the assistant message is appended all the same, the total cost
    stays as it was, and the block dies on the exception of [float] before
    it asks for the rerun. *)
Theorem chat_with_rejected_cost (e : env) (s : session) (prompt : string)
    (l : list json) (items : list (string * json)) (content value : json)
    (x : exn) :
  prompt <> "" -> user_address s <> "" ->
  chat_history s = JArr l ->
  send_chat_message (srv e) (user_address s) (selected_model s) prompt
    (session_id_to_send e s) = Ok (JObj items) ->
  lookup "response" items = Some content ->
  lookup "cost" items = Some value ->
  py_float value = Raise x ->
  let r := on_chat_input e prompt s in
  chat_history (final r) =
    JArr (l ++ [user_message prompt (format_timestamp (clock e 0));
                assistant_message content (format_timestamp (clock e 2))]) /\
  total_cost (final r) = total_cost s /\
  ended r = Uncaught x /\
  shown r = [].
Proof.
  intros Hp Ha Hl Hsend Hcontent Hvalue Hfloat r. subst r.
  rewrite (on_chat_input_calls e prompt l s (JObj items) Hp Ha Hl Hsend).
  destruct (session_at_call_fields e prompt l s) as (Hh & Ht & _).
  rewrite (chat_complete_answer e _ _ items content Hh Hcontent).
  rewrite Hvalue, Hfloat. cbn. rewrite <- app_assoc. cbn [app]. auto.
Qed.

Lemma chat_complete_no_object (e : env) (response : json) (s1 : session)
    (l1 : list json) :
  chat_history s1 = JArr l1 ->
  (forall items, response <> JObj items) ->
  exists x,
    (x = TypeError \/ x = AttributeError) /\
    chat_complete e response s1 = (Halt (Unhandled x), s1, []).
Proof.
  intros Hl Hobj.
  destruct response as [ | | | |str|arr|items];
    try (exists TypeError; split; [left; reflexivity | reflexivity]).
  - unfold chat_complete. unfold_script. cbn.
    destruct (contains "response" str); [rewrite Hl|]; cbn; eauto.
  - unfold chat_complete. unfold_script. cbn.
    destruct (existsb (is_str "response") arr); [rewrite Hl|]; cbn; eauto.
  - exfalso. eapply Hobj. reflexivity.
Qed.

(** X9: when the answer is JSON but not an object (a string, a list, a
    number, true, false, null), the chat block dies on [TypeError] or
    [AttributeError] and shows nothing; the user message stays appended and
    counted, and the total cost stays as it was. *)
Theorem chat_with_answer_that_is_no_object (e : env) (s : session)
    (prompt : string) (l : list json) (response : json) :
  prompt <> "" -> user_address s <> "" ->
  chat_history s = JArr l ->
  send_chat_message (srv e) (user_address s) (selected_model s) prompt
    (session_id_to_send e s) = Ok response ->
  (forall items, response <> JObj items) ->
  let r := on_chat_input e prompt s in
  final r = session_at_call e prompt l s /\
  (ended r = Uncaught TypeError \/ ended r = Uncaught AttributeError) /\
  shown r = [].
Proof.
  intros Hp Ha Hl Hsend Hobj r. subst r.
  rewrite (on_chat_input_calls e prompt l s response Hp Ha Hl Hsend).
  destruct (session_at_call_fields e prompt l s) as (Hh & _).
  destruct (chat_complete_no_object e response _ _ Hh Hobj) as (x & Hx & ->).
  cbn. destruct Hx as [-> | ->]; auto.
Qed.

(** ** The refresh block *)

Lemma auto_refresh_as_function (e : env) (s : session) (id : string)
    (history_data : json) :
  live_session_id s = Some id ->
  get_chat_history (srv e) id = Ok history_data ->
  auto_refresh e s =
    (Continue tt,
     match history_to_store history_data (chat_history s) with
     | Some history => set_chat_history history s
     | None => s
     end,
     []).
Proof.
  intros Hlive Hget. unfold auto_refresh, history_to_store. unfold_script.
  rewrite Hlive, Hget.
  destruct (Py.contains_key "history" history_data) as [[|]|]; try reflexivity.
  destruct (Py.getitem history_data "history") as [h|]; [|reflexivity].
  destruct (Py.len h) as [n|]; [|reflexivity].
  destruct (Py.len (chat_history s)) as [m|]; [|reflexivity].
  destruct (n >? m); reflexivity.
Qed.

Lemma history_to_store_longer (history_data local history : json) :
  history_to_store history_data local = Some history ->
  exists n m, Py.len history = Ok n /\ Py.len local = Ok m /\ m < n.
Proof.
  unfold history_to_store.
  destruct (Py.contains_key "history" history_data) as [[|]|]; try discriminate.
  destruct (Py.getitem history_data "history") as [h|]; [|discriminate].
  destruct (Py.len h) as [n|] eqn:Hn; [|discriminate].
  destruct (Py.len local) as [m|] eqn:Hm; [|discriminate].
  destruct (n >? m) eqn:Hgt; [|discriminate].
  intros H. inversion H. subst h. exists n, m. apply Z.gtb_lt in Hgt. auto.
Qed.

Lemma history_to_store_fetched (history_data local history : json) :
  history_to_store history_data local = Some history ->
  Py.getitem history_data "history" = Ok history.
Proof.
  unfold history_to_store.
  destruct (Py.contains_key "history" history_data) as [[|]|]; try discriminate.
  destruct (Py.getitem history_data "history") as [h|]; [|discriminate].
  destruct (Py.len h) as [n|]; [|discriminate].
  destruct (Py.len local) as [m|]; [|discriminate].
  destruct (n >? m); [|discriminate].
  intros H. inversion H. reflexivity.
Qed.

Lemma refresh_ended (e : env) (s : session) :
  ended (auto_refresh e s) = Completed.
Proof.
  destruct (live_session_id s) as [id|] eqn:Hlive.
  - destruct (get_chat_history_total (srv e) id) as [hd Hget].
    rewrite (auto_refresh_as_function e s id hd Hlive Hget). reflexivity.
  - unfold auto_refresh. unfold_script. rewrite Hlive. reflexivity.
Qed.

(** X10: the refresh block never ends on an exception and never shows
    anything, whatever the server answers: a failed fetch, an answer of any
    shape and a history without a length all leave it at its end. *)
Theorem refresh_never_fails (e : env) (s : session) :
  ended (auto_refresh e s) = Completed /\ shown (auto_refresh e s) = [].
Proof.
  split; [apply refresh_ended|].
  destruct (live_session_id s) as [id|] eqn:Hlive.
  - destruct (get_chat_history_total (srv e) id) as [hd Hget].
    rewrite (auto_refresh_as_function e s id hd Hlive Hget). reflexivity.
  - unfold auto_refresh. unfold_script. rewrite Hlive. reflexivity.
Qed.

(** X11: refreshing twice against the same server is refreshing once: the
    history stored by the first refresh is not replaced by the second. *)
Theorem refresh_is_idempotent (e : env) (s : session) :
  step e AutoRefresh (step e AutoRefresh s) = step e AutoRefresh s.
Proof.
  unfold step. cbn [handle].
  destruct (live_session_id s) as [id|] eqn:Hlive.
  - destruct (get_chat_history_total (srv e) id) as [hd Hget].
    rewrite (auto_refresh_as_function e s id hd Hlive Hget). cbn [final fst snd].
    destruct (history_to_store hd (chat_history s)) as [h|] eqn:Hh.
    + assert (Hlive' : live_session_id (set_chat_history h s) = Some id) by exact Hlive.
      rewrite (auto_refresh_as_function e _ id hd Hlive' Hget). cbn [final fst snd].
      cbn [chat_history set_chat_history].
      destruct (history_to_store hd h) as [h'|] eqn:Hh'; [|reflexivity].
      exfalso.
      destruct (history_to_store_longer _ _ _ Hh) as (n & m & Hn & _ & _).
      destruct (history_to_store_longer _ _ _ Hh') as (n' & m' & Hn' & Hm' & Hlt).
      assert (h' = h).
      { pose proof (history_to_store_fetched _ _ _ Hh) as H1.
        pose proof (history_to_store_fetched _ _ _ Hh') as H2.
        rewrite H1 in H2. inversion H2. reflexivity. }
      subst h'. rewrite Hn' in Hm'. inversion Hm'. lia.
    + rewrite (auto_refresh_as_function e s id hd Hlive Hget). cbn [final fst snd].
      rewrite Hh. reflexivity.
  - unfold auto_refresh. unfold_script. rewrite Hlive. cbn. rewrite Hlive. reflexivity.
Qed.

(** X12: while the messages have a length, no reaction of the page other
    than an acknowledged clear makes them shorter: a chat submission appends,
    a refresh stores only a longer history, and the rest leaves them. *)
Theorem messages_only_grow (e : env) (ev : event) (s : session) (m : Z) :
  Py.len (chat_history s) = Ok m ->
  ~ cleared e ev s ->
  exists m', Py.len (chat_history (step e ev s)) = Ok m' /\ m <= m'.
Proof.
  intros Hm Hnc.
  assert (Hsame : exists m', Py.len (chat_history s) = Ok m' /\ m <= m')
    by (exists m; split; [exact Hm | lia]).
  destruct ev as [a|mo| | | | |prompt| | ].
  - exact Hsame.
  - exact Hsame.
  - unfold step. cbn [handle]. unfold final.
    rewrite (on_health_check_silent e s). exact Hsame.
  - unfold step. cbn [handle]. unfold final.
    rewrite (on_check_credits_silent e s). exact Hsame.
  - unfold step. cbn [handle]. unfold final.
    rewrite (on_check_eligibility_silent e s). exact Hsame.
  - unfold step. cbn [handle].
    destruct (on_clear_cases e s) as [-> | [Hc _]]; [exact Hsame | contradiction].
  - unfold step. cbn [handle].
    destruct (on_chat_input_cases e prompt s)
      as [-> | (l & response & Hp & Ha & Hl & Hsend & ->)]; [exact Hsame|].
    destruct (session_at_call_fields e prompt l s) as (Hh & _).
    rewrite Hl in Hm. cbn in Hm. inversion Hm.
    destruct (chat_complete_frame e response (session_at_call e prompt l s))
      as (_ & _ & _ & _ & [-> | (l1 & x & Hl1 & ->)]).
    + rewrite Hh. cbn [Py.len]. eexists. split; [reflexivity|].
      rewrite length_app. cbn [List.length]. lia.
    + rewrite Hh in Hl1. inversion Hl1. subst l1. cbn [Py.len].
      eexists. split; [reflexivity|]. rewrite !length_app. cbn [List.length]. lia.
  - unfold step. cbn [handle]. unfold final.
    rewrite (on_export_chat_silent (clock e 0) s). exact Hsame.
  - unfold step. cbn [handle].
    destruct (live_session_id s) as [id|] eqn:Hlive.
    + destruct (get_chat_history_total (srv e) id) as [hd Hget].
      rewrite (auto_refresh_as_function e s id hd Hlive Hget). cbn [final fst snd].
      destruct (history_to_store hd (chat_history s)) as [h|] eqn:Hh; [|exact Hsame].
      destruct (history_to_store_longer _ _ _ Hh) as (n & m0 & Hn & Hm0 & Hlt).
      rewrite Hm in Hm0. inversion Hm0. subst m0.
      exists n. split; [exact Hn | lia].
    + unfold auto_refresh. unfold_script. rewrite Hlive. exact Hsame.
Qed.


(** ** What every session of the page satisfies *)

Lemma step_fresh_without_id (e : env) (ev : event) (s : session) :
  tidy s ->
  (forall id, session_id s = Some id -> String.length id = 36%nat) ->
  (session_id s = None -> message_count s = 0 /\ total_cost s = Float64.zero) ->
  0 <= message_count s ->
  let s' := step e ev s in
  (forall id, session_id s' = Some id -> String.length id = 36%nat) /\
  (session_id s' = None -> message_count s' = 0 /\ total_cost s' = Float64.zero) /\
  0 <= message_count s'.
Proof.
  intros Ht Hlen Hfresh Hcount. cbv zeta.
  destruct (step_cases e ev s)
    as [-> | [[a ->] | [[m ->] | [[_ ->] | [(h & id' & Hlive & ->) |
        (prompt & l & response & _ & _ & _ & _ & _ & ->)]]]]]; auto.
  - cbn. repeat split; try reflexivity; try lia. discriminate.
  - destruct (chat_complete_frame e response (session_at_call e prompt l s))
      as (Hid & Hc & _).
    destruct (session_at_call_fields e prompt l s) as (_ & _ & Hc1 & _ & _ & Hsid).
    rewrite Hid, Hc, Hc1, (Hsid Ht). split; [|split; [discriminate | lia]].
    intros id Heq. inversion Heq. unfold session_id_to_send.
    destruct (live_session_id s) as [id0|] eqn:Hlive.
    + apply Hlen. rewrite <- (tidy_live s Ht). exact Hlive.
    + apply uuid_to_str_length.
Qed.

(** X14: in every session the page can be in, a stored session id is a
    string of 36 characters; a session without a session id has no messages,
    a message count of 0 and a total cost of 0.0; and the message count is
    never negative. *)
Theorem reachable_sessions_are_well_formed (s : session) :
  reachable s ->
  (forall id, session_id s = Some id -> String.length id = 36%nat) /\
  (session_id s = None ->
   chat_history s = JArr [] /\ message_count s = 0 /\
   total_cost s = Float64.zero) /\
  0 <= message_count s.
Proof.
  intros Hr.
  assert (H : (forall id, session_id s = Some id -> String.length id = 36%nat) /\
              (session_id s = None ->
               message_count s = 0 /\ total_cost s = Float64.zero) /\
              0 <= message_count s).
  { induction Hr as [now | e ev s Hr IH].
    - cbn. repeat split; try reflexivity; try lia. discriminate.
    - destruct IH as (Hlen & Hfresh & Hcount).
      exact (step_fresh_without_id e ev s (reachable_tidy s Hr) Hlen Hfresh Hcount). }
  destruct H as (Hlen & Hfresh & Hcount).
  split; [exact Hlen|]. split; [|exact Hcount].
  intros Hnone. destruct (Hfresh Hnone) as [Hc Ht].
  split; [exact (proj2 (reachable_tidy s Hr) Hnone)|]. auto.
Qed.

(** ** Export, message by message *)

Lemma render_message_ok_iff (msg : json) :
  (exists line, render_message msg = Ok line) <-> renderable msg.
Proof.
  unfold render_message, renderable, rbind. split.
  - intros [line H]. destruct msg as [ | | | | | |items]; try discriminate H.
    cbn in H. destruct (lookup "role" items) as [role|] eqn:Hr; [|discriminate H].
    destruct role as [ | | | |role| | ]; try discriminate H. cbn in H.
    destruct (lookup "content" items) as [content|] eqn:Hc; [|discriminate H].
    exists items, role, content. auto.
  - intros (items & role & content & -> & Hr & Hc). cbn. rewrite Hr. cbn.
    rewrite Hc. eauto.
Qed.

Lemma map_render_message_ok_iff (msgs : list json) :
  (exists lines, map_result render_message msgs = Ok lines) <->
  Forall renderable msgs.
Proof.
  induction msgs as [|m msgs IH]; cbn.
  - split; [constructor | eauto].
  - unfold rbind. split.
    + intros [lines H].
      destruct (render_message m) as [line|] eqn:Hm; [|discriminate H].
      destruct (map_result render_message msgs) as [rest|] eqn:Hrest; [|discriminate H].
      constructor.
      * apply render_message_ok_iff. eauto.
      * apply IH. eauto.
    + intros H. inversion H as [|? ? Hm Hrest]. subst.
      apply render_message_ok_iff in Hm. destruct Hm as [line ->].
      apply IH in Hrest. destruct Hrest as [rest ->]. eauto.
Qed.

(** X15: with messages that are a list, the export offers a download
    exactly when there is at least one message and every message is a dict
    with a role that is a string and a content; one message that is not
    makes the block die on an exception with no download at all. *)
Theorem export_offers_download_iff (now : datetime) (s : session)
    (msgs : list json) :
  chat_history s = JArr msgs ->
  let r := on_export_chat now s in
  ((msgs <> [] /\ Forall renderable msgs) <->
   exists data file_name, shown r = [Download data file_name]) /\
  (~ Forall renderable msgs ->
   shown r = [] /\ exists x, ended r = Uncaught x).
Proof.
  intros Hl r. subst r. unfold on_export_chat. unfold_script. rewrite Hl.
  destruct msgs as [|m msgs].
  - cbn. split.
    + split; [intros [H _]; contradiction | intros (d & f & H); discriminate H].
    + intros H. exfalso. apply H. constructor.
  - cbn [Py.truthy Py.iter].
    destruct (map_result render_message (m :: msgs)) as [lines|x] eqn:Hmap.
    + assert (Hall : Forall renderable (m :: msgs))
        by (apply map_render_message_ok_iff; eauto).
      cbn. split.
      * split; [eauto | intros _; split; [discriminate | exact Hall]].
      * intros H. contradiction.
    + assert (Hnot : ~ Forall renderable (m :: msgs)).
      { intros H. apply map_render_message_ok_iff in H. destruct H as [lines H].
        rewrite Hmap in H. discriminate H. }
      cbn. split.
      * split; [intros [_ H]; contradiction | intros (d & f & H); discriminate H].
      * intros _. split; [reflexivity | eauto].
Qed.

(** ** Time stamps *)

Lemma digit_mod (a b : Z) : digit a = digit b -> a mod 10 = b mod 10.
Proof.
  unfold digit. intros H.
  pose proof (Z.mod_pos_bound a 10 ltac:(lia)) as Ha.
  pose proof (Z.mod_pos_bound b 10 ltac:(lia)) as Hb.
  apply (f_equal N_of_ascii) in H.
  rewrite !N_ascii_embedding in H by lia.
  lia.
Qed.

Lemma pad2_inj (a b : Z) :
  0 <= a < 100 -> 0 <= b < 100 -> pad2 a = pad2 b -> a = b.
Proof.
  intros Ha Hb H. unfold pad2 in H. inversion H as [[H1 H2]].
  apply digit_mod in H1, H2.
  rewrite (Z.mod_small (a / 10)) in H1
    by (split; [apply Z.div_pos; lia | apply Z.div_lt_upper_bound; lia]).
  rewrite (Z.mod_small (b / 10)) in H1
    by (split; [apply Z.div_pos; lia | apply Z.div_lt_upper_bound; lia]).
  rewrite (Z.div_mod a 10), (Z.div_mod b 10) by lia. lia.
Qed.

(** X16: a time stamp has eight characters, and two times of day get the
    same stamp exactly when they have the same hour, minute and second: the
    stamp says nothing of the day. *)
Theorem format_timestamp_reads_back (t1 t2 : datetime) :
  time_of_day t1 -> time_of_day t2 ->
  String.length (format_timestamp t1) = 8%nat /\
  (format_timestamp t1 = format_timestamp t2 <->
   hour t1 = hour t2 /\ minute t1 = minute t2 /\ second t1 = second t2).
Proof.
  intros (Hh1 & Hm1 & Hs1) (Hh2 & Hm2 & Hs2).
  split; [reflexivity|]. split.
  - unfold format_timestamp, strftime_HMS. intros H.
    assert (Hp : pad2 (hour t1) = pad2 (hour t2) /\
                 pad2 (minute t1) = pad2 (minute t2) /\
                 pad2 (second t1) = pad2 (second t2)).
    { unfold pad2 in *. cbn in H. inversion H. auto. }
    destruct Hp as (H1 & H2 & H3).
    repeat split; apply pad2_inj; auto; lia.
  - intros (H1 & H2 & H3). unfold format_timestamp, strftime_HMS.
    rewrite H1, H2, H3. reflexivity.
Qed.

(** ** Runs of the whole script *)

Lemma keeps_ret (P : session -> Prop) {A} (a : A) : keeps P (ret a).
Proof. intros s H. exact H. Qed.

Lemma keeps_lift (P : session -> Prop) {A} (r : result A) : keeps P (lift r).
Proof. intros s H. unfold lift. destruct r; exact H. Qed.

Lemma keeps_silent (P : session -> Prop) {A} (m : script A) :
  silent m -> keeps P m.
Proof. intros Hm s H. rewrite (Hm s). exact H. Qed.

Lemma keeps_bind (P : session -> Prop) {A B} (m : script A) (k : A -> script B) :
  keeps P m -> (forall a, keeps P (k a)) -> keeps P (bind m k).
Proof.
  intros Hm Hk s H. unfold bind. specialize (Hm s H).
  destruct (m s) as [[[a|h] s1] sh1]; cbn in Hm; [|exact Hm].
  specialize (Hk a s1 Hm). destruct (k a s1) as [[f s2] sh2]. exact Hk.
Qed.

Lemma keeps_handle (P : session -> Prop) (e : env) (ev : event) :
  (forall ev s, P s -> P (step e ev s)) -> keeps P (handle e ev).
Proof. intros Hstep s H. exact (Hstep ev s H). Qed.

(** X17: a run of the whole script, and the rerun it may ask for, keep
    every property of the session that each reaction of the page keeps: a
    run is made of the reactions, in the order of the script, and stops
    early when a block stops it. *)
Theorem runs_keep_what_steps_keep (pane : script unit) (e e' : env)
    (w : widgets) (P : session -> Prop) (s : session) :
  silent pane ->
  (forall e ev s, P s -> P (step e ev s)) ->
  P s ->
  P (final (run_once pane e w s)) /\ P (react pane e e' w s).
Proof.
  intros Hpane Hstep.
  assert (Hrun : forall e w, keeps P (run_once pane e w)).
  { intros e0 w0. unfold run_once.
    repeat first
      [ apply keeps_lift
      | apply keeps_ret
      | apply keeps_silent; exact Hpane
      | match goal with
        | |- keeps P (modify (set_user_address ?a)) =>
            apply (keeps_handle P e0 (AddressInput a)), Hstep
        | |- keeps P (modify (set_selected_model ?m)) =>
            apply (keeps_handle P e0 (ModelSelect m)), Hstep
        | |- keeps P (on_health_check e0) =>
            apply (keeps_handle P e0 HealthCheck), Hstep
        | |- keeps P (on_check_credits e0) =>
            apply (keeps_handle P e0 CheckCredits), Hstep
        | |- keeps P (on_check_eligibility e0) =>
            apply (keeps_handle P e0 CheckEligibility), Hstep
        | |- keeps P (on_clear_chat_history e0) =>
            apply (keeps_handle P e0 ClearChatHistory), Hstep
        | |- keeps P (on_chat_input e0 ?p) =>
            apply (keeps_handle P e0 (ChatInput p)), Hstep
        | |- keeps P (on_export_chat (clock e0 0)) =>
            apply (keeps_handle P e0 ExportChat), Hstep
        | |- keeps P (auto_refresh e0) =>
            apply (keeps_handle P e0 AutoRefresh), Hstep
        | |- forall _, _ => intro
        | |- keeps P (match fired w0 with _ => _ end) =>
            destruct (fired w0) as [[ | | | |prompt| ]|]
        | |- keeps P (bind _ _) => apply keeps_bind
        end ]. }
  intros HP. split; [exact (Hrun e w s HP)|].
  unfold react. destruct (ended (run_once pane e w s));
    try exact (Hrun e w s HP).
  exact (Hrun e' (settled w) _ (Hrun e w s HP)).
Qed.

Lemma check_health_total (v : server) : exists h, check_health v = Ok h.
Proof.
  unfold_api. destruct (v health_request) as [r|]; [|eauto].
  destruct (status_code r =? 200); [|eauto]. destruct (body r); eauto.
Qed.

Lemma stored_again (w : widgets) (s : session) :
  stored (settled w) (reset (stored w s)) = reset (stored w s).
Proof. reflexivity. Qed.

(** A run in which the clear button fired, up to the end of the clear
    block. *)
Lemma run_once_clear (pane : script unit) (e : env) (w : widgets) (s : session)
    (desc : string) :
  model_description (model_choice w) = Ok desc ->
  fired w = Some ClearButton ->
  run_once pane e w s =
    bind (on_clear_chat_history e)
         (fun _ => bind pane (fun _ => auto_refresh e)) (stored w s).
Proof.
  intros Hm Hf. unfold run_once. rewrite Hf, Hm.
  destruct (check_health_total (srv e)) as [h ->].
  unfold stored. unfold bind, lift, modify, ret. cbn [app].
  destruct (on_clear_chat_history e _) as [[[u|h0] s1] sh1]; [|reflexivity].
  destruct (pane s1) as [[[u2|h2] s2] sh2]; [|rewrite ?app_nil_r; reflexivity].
  destruct (auto_refresh e s2) as [[f3 s3] sh3]. rewrite ?app_nil_r. reflexivity.
Qed.

(** A run in which no widget fired. *)
Lemma run_once_idle (pane : script unit) (e : env) (w : widgets) (s : session)
    (desc : string) :
  model_description (model_choice w) = Ok desc ->
  fired w = None ->
  run_once pane e w s = bind pane (fun _ => auto_refresh e) (stored w s).
Proof.
  intros Hm Hf. unfold run_once. rewrite Hf, Hm.
  destruct (check_health_total (srv e)) as [h ->].
  unfold stored. unfold bind, lift, modify, ret. cbn [app].
  destruct (pane _) as [[[u2|h2] s2] sh2]; [|reflexivity].
  destruct (auto_refresh e s2) as [[f3 s3] sh3]. rewrite ?app_nil_r. reflexivity.
Qed.

(** A run in which the chat box fired. *)
Lemma run_once_chat (pane : script unit) (e : env) (w : widgets) (s : session)
    (desc prompt : string) :
  model_description (model_choice w) = Ok desc ->
  fired w = Some (ChatBox prompt) ->
  run_once pane e w s =
    bind pane
         (fun _ => bind (on_chat_input e prompt) (fun _ => auto_refresh e))
         (stored w s).
Proof.
  intros Hm Hf. unfold run_once. rewrite Hf, Hm.
  destruct (check_health_total (srv e)) as [h ->].
  unfold stored. unfold bind, lift, modify, ret. cbn [app].
  destruct (pane _) as [[[u2|h2] s2] sh2]; [|reflexivity].
  destruct (on_chat_input e prompt s2) as [[[u3|h3] s3] sh3];
    [|rewrite ?app_nil_r; reflexivity].
  destruct (auto_refresh e s3) as [[f4 s4] sh4]. rewrite ?app_nil_r. reflexivity.
Qed.

Lemma auto_refresh_without_id (e : env) (s : session) :
  live_session_id s = None -> auto_refresh e s = (Continue tt, s, []).
Proof.
  intros Hlive. unfold auto_refresh. unfold_script. rewrite Hlive. reflexivity.
Qed.

(** X18: in a run where the clear button fired and the server acknowledged
    with status 200, the run stops at the clear block with the session
    reset, and the rerun it asks for leaves the session reset: no block of
    the rerun asks the server for the history of the old session. *)
Theorem acknowledged_clear_survives_the_rerun (pane : script unit) (e e' : env)
    (w : widgets) (s : session) (id desc : string) :
  silent pane ->
  model_description (model_choice w) = Ok desc ->
  fired w = Some ClearButton ->
  live_session_id s = Some id ->
  clear_session (srv e) id = Ok true ->
  ended (run_once pane e w s) = Rerun /\
  final (run_once pane e w s) = reset (stored w s) /\
  react pane e e' w s = reset (stored w s).
Proof.
  intros Hpane Hm Hf Hlive Hclear.
  assert (Hlive' : live_session_id (stored w s) = Some id) by exact Hlive.
  assert (Hrun : run_once pane e w s =
                 (Halt RerunRequested, reset (stored w s), [ChatCleared])).
  { rewrite (run_once_clear pane e w s desc Hm Hf). unfold bind at 1.
    rewrite (on_clear_acknowledged e (stored w s) id Hlive' Hclear). reflexivity. }
  unfold react. rewrite Hrun. cbn [ended final ending_of fst snd].
  split; [reflexivity|]. split; [reflexivity|].
  rewrite (run_once_idle pane e' (settled w) _ desc Hm eq_refl).
  rewrite stored_again. unfold bind.
  pose proof (Hpane (reset (stored w s))) as Hs.
  destruct (pane (reset (stored w s))) as [[[u|h] s1] sh1]; cbn in Hs; subst s1;
    [|reflexivity].
  rewrite (auto_refresh_without_id e' (reset (stored w s)) eq_refl). reflexivity.
Qed.

(** X19: in a run where the clear button fired and the server did not
    acknowledge, the run goes on after the failure banner: unless the chat
    pane stops it, the refresh block runs in the same run, so the session at
    the end of the run is the refreshed one, not always the one the clear
    block left. *)
Theorem refused_clear_is_followed_by_refresh (pane : script unit) (e : env)
    (w : widgets) (s : session) (id desc : string) :
  silent pane ->
  model_description (model_choice w) = Ok desc ->
  fired w = Some ClearButton ->
  live_session_id s = Some id ->
  clear_session (srv e) id = Ok false ->
  let r := run_once pane e w s in
  (final r = stored w s \/ final r = step e AutoRefresh (stored w s)) /\
  (fst (fst (pane (stored w s))) = Continue tt ->
   final r = step e AutoRefresh (stored w s) /\ ended r = Completed).
Proof.
  intros Hpane Hm Hf Hlive Hclear r.
  assert (Hlive' : live_session_id (stored w s) = Some id) by exact Hlive.
  assert (Hr : r = bind (on_clear_chat_history e)
                     (fun _ => bind pane (fun _ => auto_refresh e)) (stored w s))
    by exact (run_once_clear pane e w s desc Hm Hf).
  clearbody r. unfold bind in Hr.
  rewrite (on_clear_refused e (stored w s) id Hlive' Hclear) in Hr.
  pose proof (Hpane (stored w s)) as Hs.
  destruct (pane (stored w s)) as [[[u|h] s1] sh1]; cbn in Hs; subst s1.
  - unfold step. cbn [handle].
    pose proof (refresh_ended e (stored w s)) as Hend.
    destruct (auto_refresh e (stored w s)) as [[f s2] sh2]. subst r. cbn in *.
    split; [right; reflexivity|]. intros _. split; [reflexivity | exact Hend].
  - subst r. cbn. split; [left; reflexivity|]. discriminate.
Qed.

Lemma on_chat_input_keeps_widgets (e : env) (prompt : string) (s : session) :
  user_address (final (on_chat_input e prompt s)) = user_address s /\
  selected_model (final (on_chat_input e prompt s)) = selected_model s.
Proof.
  destruct (on_chat_input_cases e prompt s)
    as [-> | (l & response & _ & _ & _ & _ & ->)]; [auto|].
  destruct (chat_complete_frame e response (session_at_call e prompt l s))
    as (_ & _ & -> & -> & _).
  destruct (session_at_call_fields e prompt l s) as (_ & _ & _ & -> & -> & _).
  auto.
Qed.

Lemma stored_same (w : widgets) (s : session) :
  user_address s = address_input w -> selected_model s = model_choice w ->
  stored (settled w) s = s.
Proof.
  intros Ha Hm. destruct s. cbn in *. subst. reflexivity.
Qed.

(** X20: in a run where the chat box fired and the chat block asked for the
    rerun (the answer carried a response), the run stops at the chat block:
    neither the export block nor the refresh block of that run is reached.
    The refresh happens in the rerun, against the session the chat block
    left, unless the chat pane stops the rerun first. *)
Theorem answered_chat_is_refreshed_in_the_rerun (pane : script unit)
    (e e' : env) (w : widgets) (s : session) (prompt desc : string) :
  silent pane ->
  model_description (model_choice w) = Ok desc ->
  fired w = Some (ChatBox prompt) ->
  fst (fst (pane (stored w s))) = Continue tt ->
  ended (on_chat_input e prompt (stored w s)) = Rerun ->
  let s1 := final (on_chat_input e prompt (stored w s)) in
  final (run_once pane e w s) = s1 /\
  ended (run_once pane e w s) = Rerun /\
  (react pane e e' w s = s1 \/ react pane e e' w s = step e' AutoRefresh s1) /\
  (fst (fst (pane s1)) = Continue tt ->
   react pane e e' w s = step e' AutoRefresh s1).
Proof.
  intros Hpane Hm Hf Hgo Hrerun s1.
  assert (Hrun : final (run_once pane e w s) = s1 /\
                 ended (run_once pane e w s) = Rerun).
  { rewrite (run_once_chat pane e w s desc prompt Hm Hf). unfold bind.
    pose proof (Hpane (stored w s)) as Hs.
    destruct (pane (stored w s)) as [[[u|h] s0] sh0]; cbn in Hs, Hgo; subst s0;
      [|discriminate Hgo].
    subst s1. unfold ended, final in *.
    destruct (on_chat_input e prompt (stored w s)) as [[[u1|[|x]] s2] sh2];
      cbn in Hrerun; try discriminate Hrerun.
    cbn. auto. }
  destruct Hrun as [Hfinal Hended].
  split; [exact Hfinal|]. split; [exact Hended|].
  unfold react. rewrite Hended, Hfinal.
  rewrite (run_once_idle pane e' (settled w) s1 desc Hm eq_refl).
  destruct (on_chat_input_keeps_widgets e prompt (stored w s)) as [Ha Hmo].
  rewrite (stored_same w s1 Ha Hmo). unfold bind, step. cbn [handle].
  pose proof (Hpane s1) as Hs.
  destruct (pane s1) as [[[u|h] s0] sh0]; cbn in Hs; subst s0.
  - destruct (auto_refresh e' s1) as [[f s2] sh2]. cbn. auto.
  - cbn. split; [left; reflexivity | discriminate].
Qed.


(** ** The chat pane *)

Lemma len_nonneg (v : json) (m : Z) : Py.len v = Ok m -> 0 <= m.
Proof.
  destruct v; cbn; intros H; inversion H; lia.
Qed.

Lemma characters_from_head (s : string) :
  code_points s <> 0%nat ->
  exists c rest, snd (characters_from s) = c :: rest.
Proof.
  induction s as [|c s IH]; cbn [code_points characters_from]; [congruence|].
  destruct (characters_from s) as [continuation chars] eqn:E.
  destruct (is_continuation c); cbn [snd] in *; eauto.
Qed.

Lemma show_message_of_str (st : streamlit) (c : string) :
  show_message st (JStr c) = Raise TypeError.
Proof. reflexivity. Qed.

(** Over a history that is not a list and not empty, the chat pane dies at
    the role of the first item, [message["role"]] on a str. *)
Lemma chat_pane_of_non_list (st : streamlit) (s : session) (n : Z) :
  (forall l, chat_history s <> JArr l) ->
  Py.len (chat_history s) = Ok n -> 0 < n ->
  chat_pane st s = (Halt (Unhandled TypeError), s, []).
Proof.
  intros Hnl Hn Hpos. unfold chat_pane. unfold_script.
  destruct (chat_history s) as [| | | |h|l|items]; cbn in Hn; try discriminate Hn.
  - inversion Hn as [Hn']. clear Hn.
    assert (Hcp : code_points h <> 0%nat) by lia.
    destruct (characters_from_head h Hcp) as (c & rest & Hc).
    assert (Hne : String.eqb h "" = false).
    { destruct h; [cbn in Hcp; congruence | reflexivity]. }
    cbn [Py.truthy Py.iter]. rewrite Hne. cbn [negb].
    unfold characters. rewrite Hc. reflexivity.
  - exfalso. exact (Hnl l eq_refl).
  - inversion Hn as [Hn']. clear Hn.
    destruct items as [|[k v] items]; [cbn in Hn'; lia | reflexivity].
Qed.

Lemma chat_pane_silent (st : streamlit) : silent (chat_pane st).
Proof. unfold chat_pane. silence. Qed.

(** A run in which no button of the sidebar fired and the chat pane dies. *)
Lemma run_once_pane_stops (pane : script unit) (e : env) (w : widgets)
    (s : session) (desc : string) (x : exn) :
  model_description (model_choice w) = Ok desc ->
  fired w = None \/ (exists prompt, fired w = Some (ChatBox prompt)) \/
    fired w = Some ExportButton ->
  pane (stored w s) = (Halt (Unhandled x), stored w s, []) ->
  run_once pane e w s = (Halt (Unhandled x), stored w s, []).
Proof.
  intros Hm Hf Hpane. unfold run_once.
  destruct (check_health_total (srv e)) as [h Hh].
  destruct Hf as [Hf | [[prompt Hf] | Hf]]; rewrite Hf, Hm, Hh;
    unfold stored in *; unfold bind, lift, modify, ret; cbn [app];
    rewrite Hpane; reflexivity.
Qed.

(** X13: the refresh block stores a fetched "history" that is longer than
    the messages even when it is not a list (a JSON string, an object).  From
    then on every run in which nothing, the chat box or the export button
    fired dies in the chat pane on [TypeError], at [message["role"]] of line
    200, whatever the calls into Streamlit do: the chat block and the export
    block are not reached, and the session is left as the widgets stored
    it. *)
Theorem history_that_is_no_list_stops_the_page (st : streamlit) (e : env)
    (s : session) (id : string) (items : list (string * json))
    (history : json) (n m : Z) :
  live_session_id s = Some id ->
  get_chat_history (srv e) id = Ok (JObj items) ->
  lookup "history" items = Some history ->
  (forall l, history <> JArr l) ->
  Py.len history = Ok n -> Py.len (chat_history s) = Ok m -> m < n ->
  let s' := step e AutoRefresh s in
  chat_history s' = history /\
  forall e' w desc,
    model_description (model_choice w) = Ok desc ->
    fired w = None \/ (exists prompt, fired w = Some (ChatBox prompt)) \/
      fired w = Some ExportButton ->
    run_once (chat_pane st) e' w s' =
      (Halt (Unhandled TypeError), stored w s', []).
Proof.
  intros Hlive Hget Hlook Hnl Hn Hm Hlt s'.
  assert (Hh : chat_history s' = history).
  { subst s'. unfold step. cbn [handle].
    rewrite (auto_refresh_history e s id items history n m Hlive Hget Hlook Hn Hm).
    apply Z.gtb_lt in Hlt. rewrite Hlt. reflexivity. }
  split; [exact Hh|]. intros e' w desc Hdesc Hf.
  apply (run_once_pane_stops (chat_pane st) e' w s' desc TypeError Hdesc Hf).
  assert (Hst : chat_history (stored w s') = history) by exact Hh.
  pose proof (len_nonneg _ _ Hm) as Hm0.
  apply (chat_pane_of_non_list st (stored w s') n).
  - rewrite Hst. exact Hnl.
  - rewrite Hst. exact Hn.
  - lia.
Qed.

End Script.

(** * Sample runs *)

(** The example of the specification: address 0xABC, model 1, "hello",
    answered by [{response: "hi there", cost: 0.0002}]. *)
Example chat_example :
  let r := on_chat_input sample_float_of_str (sample_env (answering 200 sample_answer))
             "hello" sample_session in
  chat_history (final r) =
    JArr [JObj [("role", JStr "user"); ("content", JStr "hello");
                ("timestamp", JStr "09:05:07")];
          JObj [("role", JStr "assistant"); ("content", JStr "hi there");
                ("timestamp", JStr "09:05:07")]] /\
  total_cost (final r) = cost_0_0002 /\
  message_count (final r) = 1 /\
  session_id (final r) = Some "00000000-27e4-4b32-86be-c9b16e398115" /\
  ended r = Rerun.
Proof. vm_compute. repeat split. Qed.

(** [len] and [for] count the characters of a str, not its bytes: the euro
    sign is three bytes of UTF-8 and one character. *)
Example len_counts_characters :
  let euro := String (ascii_of_nat 226) (String (ascii_of_nat 130)
                (String (ascii_of_nat 172) EmptyString)) in
  Py.len (JStr euro) = Ok 1 /\
  Py.len (JStr ("a" ++ euro ++ "b")) = Ok 3 /\
  Py.iter (JStr ("a" ++ euro ++ "b")) = Ok [JStr "a"; JStr euro; JStr "b"].
Proof. vm_compute. repeat split. Qed.

(** The export of the conversation of the example. *)
Example export_example :
  let msgs := [user_message "hello" "09:05:07";
               assistant_message (JStr "hi there") "09:05:08"] in
  shown (on_export_chat sample_str_of_json sample_title_of_str sample_now
           (set_chat_history (JArr msgs) sample_session)) =
    [Download ("User: hello" ++ newline ++ newline ++ "Assistant: hi there")
              "chat_history_20240102_090507.txt"].
Proof. vm_compute. reflexivity. Qed.

(** The chat pane over the conversation of the example, and over a history
    that is a string. *)
Example chat_pane_example :
  let msgs := [user_message "hello" "09:05:07";
               assistant_message (JStr "hi there") "09:05:08"] in
  chat_pane sample_streamlit (set_chat_history (JArr msgs) sample_session) =
    (Continue tt, set_chat_history (JArr msgs) sample_session, []) /\
  ended (chat_pane sample_streamlit
           (set_chat_history (JStr "corrupted") sample_session)) =
    Uncaught TypeError.
Proof. vm_compute. split; reflexivity. Qed.

(** [float] and [+] are those of Python: 0.1 + 0.2 is 0.30000000000000004,
    and [float(2**53 + 1)] rounds to the even neighbour. *)
Example add_tenth_fifth :
  Float64.add (S754_finite false 7205759403792794 (-56))
              (S754_finite false 7205759403792794 (-55))
  = S754_finite false 5404319552844596 (-54).
Proof. vm_compute. reflexivity. Qed.

Example float_of_int_rounds_to_even :
  py_float sample_float_of_str (JInt (2 ^ 53 + 1))
  = Ok (S754_finite false 4503599627370496 1).
Proof. vm_compute. reflexivity. Qed.

Example float_of_huge_int_overflows :
  py_float sample_float_of_str (JInt (10 ^ 400)) = Raise OverflowError.
Proof. vm_compute. reflexivity. Qed.

(** C1 on a sample: a session with id "s-1" and a server that answers 200. *)
Lemma clear_session_is_atomic_witness :
  let s := set_session_id (Some "s-1") sample_session in
  let e := sample_env (answering 200 JNull) in
  live_session_id s = Some "s-1" /\
  exists acknowledged : bool,
    clear_session (srv e) "s-1" = Ok acknowledged /\
    (acknowledged = true ->
       session_id (final (on_clear_chat_history e s)) = None /\
       chat_history (final (on_clear_chat_history e s)) = JArr [] /\
       total_cost (final (on_clear_chat_history e s)) = Float64.zero /\
       message_count (final (on_clear_chat_history e s)) = 0) /\
    (acknowledged = false ->
       session_id (final (on_clear_chat_history e s)) = session_id s /\
       chat_history (final (on_clear_chat_history e s)) = chat_history s /\
       total_cost (final (on_clear_chat_history e s)) = total_cost s /\
       message_count (final (on_clear_chat_history e s)) = message_count s /\
       shown (on_clear_chat_history e s) = [ClearFailed]).
Proof.
  intros s e. split; [reflexivity|].
  apply (clear_session_is_atomic e s "s-1"). reflexivity.
Defined.

(** C2 as stated fails: a server that answers with a cost of -1 takes the
    total cost of a reachable session from 0.0 to -1.0, by a chat submission
    and no clear. *)
Lemma negative_cost_lowers_total_cost :
  let e := sample_env (answering 200 (JObj [("response", JStr "hi"); ("cost", JInt (-1))])) in
  let s' := step sample_float_of_str sample_str_of_json sample_title_of_str e (ChatInput "hello")
              sample_session in
  reachable sample_float_of_str sample_str_of_json sample_title_of_str sample_session /\
  ~ cleared e (ChatInput "hello") sample_session /\
  total_cost sample_session = Float64.zero /\
  total_cost s' = S754_finite true 4503599627370496 (-52) /\
  Float64.ltb (total_cost s') (total_cost sample_session) = true.
Proof.
  intros e s'. split; [|split; [|split; [|split]]].
  - exact (reachable_step _ _ _ e (ModelSelect 1) _
             (reachable_step _ _ _ e (AddressInput "0xABC") _
                (reachable_initial _ _ _ sample_now))).
  - intros [Hev _]. discriminate Hev.
  - reflexivity.
  - vm_compute. reflexivity.
  - vm_compute. reflexivity.
Qed.

(** C2, amended, on the example of the specification. *)
Lemma total_cost_never_decreases_witness :
  let e := sample_env (answering 200 sample_answer) in
  let s' := step sample_float_of_str sample_str_of_json sample_title_of_str e (ChatInput "hello")
              sample_session in
  reachable_nonneg sample_float_of_str sample_str_of_json sample_title_of_str sample_session /\
  costs_nonneg sample_float_of_str e /\
  (cleared e (ChatInput "hello") sample_session -> total_cost s' = Float64.zero) /\
  (~ cleared e (ChatInput "hello") sample_session ->
   Float64.leb (total_cost sample_session) (total_cost s') = true) /\
  (Float64.eqb (total_cost s') Float64.zero = true ->
   Float64.eqb (total_cost sample_session) Float64.zero = true \/
   cleared e (ChatInput "hello") sample_session).
Proof.
  intros e s'.
  assert (He : costs_nonneg sample_float_of_str e).
  { intros a m msg id r items value cost Hr Hb Hv Hf.
    inversion Hr. subst r. inversion Hb. subst items.
    inversion Hv. subst value. inversion Hf. subst cost.
    split; reflexivity. }
  assert (Hs : reachable_nonneg sample_float_of_str sample_str_of_json sample_title_of_str sample_session).
  { exact (reachable_nonneg_step _ _ _ e (ModelSelect 1) _ He
             (reachable_nonneg_step _ _ _ e (AddressInput "0xABC") _ He
                (reachable_nonneg_initial _ _ _ sample_now))). }
  split; [exact Hs|]. split; [exact He|].
  exact (total_cost_never_decreases_under_nonneg_costs
           sample_float_of_str sample_str_of_json sample_title_of_str sample_session e
           (ChatInput "hello") Hs He).
Defined.



(** C5 on a server that answers 402 with [{error: "Insufficient credits"}]. *)
Lemma chat_error_is_shown_not_rolled_back_witness :
  let items := [("error", JStr "Insufficient credits")] in
  let e := sample_env (answering 402 (JObj items)) in
  let r := on_chat_input sample_float_of_str e "hello" sample_session in
  "hello" <> "" /\ user_address sample_session <> "" /\
  chat_history sample_session = JArr [] /\
  send_chat_message (srv e) (user_address sample_session)
    (selected_model sample_session) "hello"
    (session_id_to_send e sample_session) = Ok (JObj items) /\
  lookup "response" items = None /\
  chat_history (final r) = JArr [user_message "hello" "09:05:07"] /\
  total_cost (final r) = total_cost sample_session /\
  ended r = Completed /\
  shown r = [ErrorBanner (JStr "Insufficient credits")].
Proof.
  intros items e r.
  assert (Hp : "hello" <> "") by discriminate.
  assert (Ha : user_address sample_session <> "") by discriminate.
  split; [exact Hp|]. split; [exact Ha|].
  split; [reflexivity|]. split; [reflexivity|]. split; [reflexivity|].
  exact (chat_error_is_shown_not_rolled_back sample_float_of_str e sample_session
           "hello" [] items Hp Ha eq_refl eq_refl eq_refl).
Defined.

(** C6 on the first submission of the sample session. *)
Lemma session_id_is_created_once_and_reused_witness :
  let e := sample_env (answering 200 sample_answer) in
  reachable sample_float_of_str sample_str_of_json sample_title_of_str sample_session /\
  session_id sample_session = None /\
  session_id (session_at_call e "hello" [] sample_session) =
    Some "00000000-27e4-4b32-86be-c9b16e398115" /\
  session_id (step sample_float_of_str sample_str_of_json sample_title_of_str e (ChatInput "hello")
                sample_session) =
    Some "00000000-27e4-4b32-86be-c9b16e398115".
Proof.
  intros e.
  assert (Hs : reachable sample_float_of_str sample_str_of_json sample_title_of_str sample_session).
  { exact (reachable_step _ _ _ e (ModelSelect 1) _
             (reachable_step _ _ _ e (AddressInput "0xABC") _
                (reachable_initial _ _ _ sample_now))). }
  assert (Hp : "hello" <> "") by discriminate.
  assert (Ha : user_address sample_session <> "") by discriminate.
  destruct (session_id_is_created_once_and_reused
              sample_float_of_str sample_str_of_json sample_title_of_str sample_session e Hs)
    as (Hfirst & _ & _).
  destruct (Hfirst "hello" Hp Ha eq_refl) as (_ & Hcall & _ & Hstep).
  split; [exact Hs|]. split; [reflexivity|]. split; [exact Hcall | exact Hstep].
Defined.

(** C7 on one local message and a fetched history of two. *)
Lemma reconciliation_replaces_iff_longer_witness :
  let local := JArr [user_message "hello" "09:05:07"] in
  let history :=
    JArr [user_message "hello" "09:05:07";
          assistant_message (JStr "hi there") "09:05:08"] in
  let s := set_chat_history local (set_session_id (Some "s-1") sample_session) in
  let e := sample_env (answering 200 (JObj [("history", history)])) in
  live_session_id s = Some "s-1" /\
  get_chat_history (srv e) "s-1" = Ok (JObj [("history", history)]) /\
  Py.len history = Ok 2 /\ Py.len (chat_history s) = Ok 1 /\
  (1 < 2 -> final (auto_refresh e s) = set_chat_history history s) /\
  (2 <= 1 -> final (auto_refresh e s) = s).
Proof.
  intros local history s e.
  split; [reflexivity|]. split; [reflexivity|].
  split; [reflexivity|]. split; [reflexivity|].
  exact (reconciliation_replaces_iff_longer e s "s-1" [("history", history)]
           history 2 1 eq_refl eq_refl eq_refl eq_refl eq_refl).
Defined.

(** C8 as stated fails: when the server answers 500 with a JSON body that
    has no "error" entry, [get_credits] hands the body back as it is.  And an
    answer whose cost is null makes [float] raise in the chat block, which
    nothing catches. *)
Lemma non_2xx_answer_is_returned_as_it_is :
  let detail := JObj [("detail", JStr "Internal Server Error")] in
  let v := answering 500 detail in
  v (credits_request "0xABC") = Some {| status_code := 500; body := Some detail |} /\
  get_credits v "0xABC" = Ok detail /\
  ~ is_error_result detail /\
  ended (on_chat_input sample_float_of_str
           (sample_env (answering 200 (JObj [("response", JStr "hi"); ("cost", JNull)])))
           "hello" sample_session) = Uncaught TypeError.
Proof.
  intros detail v. split; [reflexivity|]. split; [reflexivity|]. split.
  - intros (items & message & Heq & Herr). inversion Heq. subst items.
    discriminate Herr.
  - reflexivity.
Qed.

(** * Sample runs of the further properties *)

(** X4 on a server that answers [{credits: "1.5"}]. *)
Lemma credits_button_outcome_witness :
  let e := sample_env (answering 200 (JObj [("credits", JStr "1.5")])) in
  user_address sample_session <> "" /\
  ended (on_check_credits e sample_session) = Completed /\
  shown (on_check_credits e sample_session) = [Credits (JStr "1.5")].
Proof.
  intros e.
  assert (Ha : user_address sample_session <> "") by discriminate.
  split; [exact Ha|].
  destruct (credits_button_outcome e sample_session Ha) as (Hyes & _ & _).
  exact (Hyes [("credits", JStr "1.5")] (JStr "1.5") eq_refl eq_refl).
Defined.

(** X5 on a server that answers [{canChat: true}] with no cost. *)
Lemma eligibility_button_outcome_witness :
  let items := [("canChat", JBool true)] in
  let e := sample_env (answering 200 (JObj items)) in
  user_address sample_session <> "" /\
  check_eligibility (srv e) (user_address sample_session)
    (selected_model sample_session) = Ok (JObj items) /\
  lookup "canChat" items = Some (JBool true) /\
  ended (on_check_eligibility e sample_session) = Uncaught KeyError /\
  shown (on_check_eligibility e sample_session) = [].
Proof.
  intros items e.
  assert (Ha : user_address sample_session <> "") by discriminate.
  split; [exact Ha|]. split; [reflexivity|]. split; [reflexivity|].
  destruct (eligibility_button_outcome e sample_session items (JBool true)
              Ha eq_refl eq_refl) as (_ & Hno).
  exact (Hno eq_refl).
Defined.

(** X7 on a server that refuses with 402. *)
Lemma chat_submission_accounting_witness :
  let e := sample_env (answering 402 (JObj [("error", JStr "Insufficient credits")])) in
  let s' := final (on_chat_input sample_float_of_str e "hello" sample_session) in
  "hello" <> "" /\ user_address sample_session <> "" /\
  chat_history sample_session = JArr [] /\
  message_count s' = message_count sample_session + 1 /\
  last_activity s' = sample_now.
Proof.
  intros e s'.
  assert (Hp : "hello" <> "") by discriminate.
  assert (Ha : user_address sample_session <> "") by discriminate.
  split; [exact Hp|]. split; [exact Ha|]. split; [reflexivity|].
  destruct (chat_submission_accounting sample_float_of_str e sample_session
              "hello" [] Hp Ha eq_refl) as (Hc & Hl & _).
  split; [exact Hc | exact Hl].
Defined.

(** X8 on a server that answers [{response: "hi", cost: null}]. *)
Lemma chat_with_rejected_cost_witness :
  let items := [("response", JStr "hi"); ("cost", JNull)] in
  let e := sample_env (answering 200 (JObj items)) in
  let r := on_chat_input sample_float_of_str e "hello" sample_session in
  "hello" <> "" /\ user_address sample_session <> "" /\
  chat_history sample_session = JArr [] /\
  py_float sample_float_of_str JNull = Raise TypeError /\
  chat_history (final r) =
    JArr [user_message "hello" "09:05:07";
          assistant_message (JStr "hi") "09:05:07"] /\
  total_cost (final r) = total_cost sample_session /\
  ended r = Uncaught TypeError /\
  shown r = [].
Proof.
  intros items e r.
  assert (Hp : "hello" <> "") by discriminate.
  assert (Ha : user_address sample_session <> "") by discriminate.
  split; [exact Hp|]. split; [exact Ha|]. split; [reflexivity|].
  split; [reflexivity|].
  exact (chat_with_rejected_cost sample_float_of_str e sample_session "hello" []
           items (JStr "hi") JNull TypeError Hp Ha eq_refl eq_refl eq_refl
           eq_refl eq_refl).
Defined.

(** X9 on a server that answers the list [["response"]]. *)
Lemma chat_with_answer_that_is_no_object_witness :
  let answer := JArr [JStr "response"] in
  let e := sample_env (answering 200 answer) in
  let r := on_chat_input sample_float_of_str e "hello" sample_session in
  "hello" <> "" /\ user_address sample_session <> "" /\
  chat_history sample_session = JArr [] /\
  (forall items, answer <> JObj items) /\
  final r = session_at_call e "hello" [] sample_session /\
  (ended r = Uncaught TypeError \/ ended r = Uncaught AttributeError) /\
  shown r = [].
Proof.
  intros answer e r.
  assert (Hp : "hello" <> "") by discriminate.
  assert (Ha : user_address sample_session <> "") by discriminate.
  assert (Hobj : forall items, answer <> JObj items) by discriminate.
  split; [exact Hp|]. split; [exact Ha|]. split; [reflexivity|].
  split; [exact Hobj|].
  exact (chat_with_answer_that_is_no_object sample_float_of_str e sample_session
           "hello" [] answer Hp Ha eq_refl eq_refl Hobj).
Defined.

(** X12 on the chat submission of the example. *)
Lemma messages_only_grow_witness :
  let e := sample_env (answering 200 sample_answer) in
  Py.len (chat_history sample_session) = Ok 0 /\
  ~ cleared e (ChatInput "hello") sample_session /\
  exists m',
    Py.len (chat_history (step sample_float_of_str sample_str_of_json sample_title_of_str e
                            (ChatInput "hello") sample_session)) = Ok m' /\
    0 <= m'.
Proof.
  intros e.
  assert (Hnc : ~ cleared e (ChatInput "hello") sample_session).
  { intros [Hev _]. discriminate Hev. }
  split; [reflexivity|]. split; [exact Hnc|].
  exact (messages_only_grow sample_float_of_str sample_str_of_json sample_title_of_str e
           (ChatInput "hello") sample_session 0 eq_refl Hnc).
Defined.


(** X13 on a server whose history is the string "corrupted": the run of
    the next chat submission dies in the chat pane. *)
Lemma history_that_is_no_list_stops_the_page_witness :
  let items := [("history", JStr "corrupted")] in
  let e := sample_env (answering 200 (JObj items)) in
  let s' := step sample_float_of_str sample_str_of_json sample_title_of_str e
              AutoRefresh sample_session_with_id in
  let w := sample_widgets (Some (ChatBox "hello")) in
  live_session_id sample_session_with_id = Some sample_id /\
  (forall l, JStr "corrupted" <> JArr l) /\
  Py.len (JStr "corrupted") = Ok 9 /\
  Py.len (chat_history sample_session_with_id) = Ok 0 /\
  chat_history s' = JStr "corrupted" /\
  run_once sample_float_of_str sample_str_of_json sample_title_of_str
           (chat_pane sample_streamlit) e w s' =
    (Halt (Unhandled TypeError), stored w s', []).
Proof.
  intros items e s' w.
  assert (Hnl : forall l, JStr "corrupted" <> JArr l) by discriminate.
  assert (H09 : 0 < 9) by lia.
  split; [reflexivity|]. split; [exact Hnl|].
  split; [reflexivity|]. split; [reflexivity|].
  destruct (history_that_is_no_list_stops_the_page sample_float_of_str
              sample_str_of_json sample_title_of_str sample_streamlit e
              sample_session_with_id sample_id items
              (JStr "corrupted") 9 0 eq_refl eq_refl eq_refl Hnl eq_refl eq_refl H09)
    as (Hh & Hrun).
  split; [exact Hh|].
  apply (Hrun e w "Medical advice and health guidance" eq_refl).
  right. left. exists "hello". reflexivity.
Defined.

(** X14 on the session after the chat submission of the example. *)
Lemma reachable_sessions_are_well_formed_witness :
  let e := sample_env (answering 200 sample_answer) in
  let s := step sample_float_of_str sample_str_of_json sample_title_of_str e (ChatInput "hello")
             sample_session in
  reachable sample_float_of_str sample_str_of_json sample_title_of_str s /\
  (forall id, session_id s = Some id -> String.length id = 36%nat) /\
  (session_id s = None ->
   chat_history s = JArr [] /\ message_count s = 0 /\
   total_cost s = Float64.zero) /\
  0 <= message_count s.
Proof.
  intros e s.
  assert (Hs : reachable sample_float_of_str sample_str_of_json sample_title_of_str s).
  { exact (reachable_step _ _ _ e (ChatInput "hello") _
             (reachable_step _ _ _ e (ModelSelect 1) _
                (reachable_step _ _ _ e (AddressInput "0xABC") _
                   (reachable_initial _ _ _ sample_now)))). }
  split; [exact Hs|].
  exact (reachable_sessions_are_well_formed sample_float_of_str
           sample_str_of_json sample_title_of_str s Hs).
Defined.

(** X15 on one message of the data model. *)
Lemma export_offers_download_iff_witness :
  let msgs := [user_message "hello" "09:05:07"] in
  let s := set_chat_history (JArr msgs) sample_session in
  chat_history s = JArr msgs /\
  ((msgs <> [] /\ Forall renderable msgs) <->
   exists data file_name,
     shown (on_export_chat sample_str_of_json sample_title_of_str sample_now s) =
       [Download data file_name]).
Proof.
  intros msgs s. split; [reflexivity|].
  exact (proj1 (export_offers_download_iff sample_str_of_json sample_title_of_str sample_now s msgs
                  eq_refl)).
Defined.

(** X16 on the sample time, 09:05:07. *)
Lemma format_timestamp_reads_back_witness :
  time_of_day sample_now /\
  String.length (format_timestamp sample_now) = 8%nat.
Proof.
  assert (Ht : time_of_day sample_now) by (unfold time_of_day; cbn; lia).
  split; [exact Ht|].
  exact (proj1 (format_timestamp_reads_back sample_now sample_now Ht Ht)).
Defined.

(** X17 on a run of the example's chat submission from the first session. *)
Lemma runs_keep_what_steps_keep_witness :
  let e := sample_env (answering 200 sample_answer) in
  let w := sample_widgets (Some (ChatBox "hello")) in
  let P := reachable sample_float_of_str sample_str_of_json sample_title_of_str in
  silent sample_pane /\
  P (initial_session sample_now) /\
  P (final (run_once sample_float_of_str sample_str_of_json sample_title_of_str sample_pane e w
              (initial_session sample_now))) /\
  P (react sample_float_of_str sample_str_of_json sample_title_of_str sample_pane e e w
       (initial_session sample_now)).
Proof.
  intros e w P.
  assert (Hpane : silent sample_pane) by exact (silent_ret tt).
  assert (H0 : P (initial_session sample_now)) by apply reachable_initial.
  split; [exact Hpane|]. split; [exact H0|].
  exact (runs_keep_what_steps_keep sample_float_of_str sample_str_of_json sample_title_of_str
           sample_pane e e w P (initial_session sample_now) Hpane
           (fun e0 ev s0 H => reachable_step _ _ _ e0 ev s0 H) H0).
Defined.

(** X18 on a server that answers the DELETE with 200. *)
Lemma acknowledged_clear_survives_the_rerun_witness :
  let e := sample_env (answering 200 JNull) in
  let w := sample_widgets (Some ClearButton) in
  silent sample_pane /\
  model_description (model_choice w) = Ok "Medical advice and health guidance" /\
  live_session_id sample_session_with_id = Some sample_id /\
  clear_session (srv e) sample_id = Ok true /\
  ended (run_once sample_float_of_str sample_str_of_json sample_title_of_str sample_pane e w
           sample_session_with_id) = Rerun /\
  react sample_float_of_str sample_str_of_json sample_title_of_str sample_pane e e w
    sample_session_with_id = reset (stored w sample_session_with_id).
Proof.
  intros e w.
  assert (Hpane : silent sample_pane) by exact (silent_ret tt).
  split; [exact Hpane|]. split; [reflexivity|]. split; [reflexivity|].
  split; [reflexivity|].
  destruct (acknowledged_clear_survives_the_rerun sample_float_of_str
              sample_str_of_json sample_title_of_str sample_pane e e w sample_session_with_id
              sample_id "Medical advice and health guidance"
              Hpane eq_refl eq_refl eq_refl eq_refl) as (Hend & _ & Hreact).
  split; [exact Hend | exact Hreact].
Defined.

(** X19 on a server that answers the DELETE with 204 and the history
    request with a body that has no history. *)
Lemma refused_clear_is_followed_by_refresh_witness :
  let e := sample_env (answering 204 JNull) in
  let w := sample_widgets (Some ClearButton) in
  let r := run_once sample_float_of_str sample_str_of_json sample_title_of_str sample_pane e w
             sample_session_with_id in
  silent sample_pane /\
  clear_session (srv e) sample_id = Ok false /\
  fst (fst (sample_pane (stored w sample_session_with_id))) = Continue tt /\
  final r = step sample_float_of_str sample_str_of_json sample_title_of_str e AutoRefresh
              (stored w sample_session_with_id) /\
  ended r = Completed.
Proof.
  intros e w r.
  assert (Hpane : silent sample_pane) by exact (silent_ret tt).
  split; [exact Hpane|]. split; [reflexivity|]. split; [reflexivity|].
  destruct (refused_clear_is_followed_by_refresh sample_float_of_str
              sample_str_of_json sample_title_of_str sample_pane e w sample_session_with_id
              sample_id "Medical advice and health guidance"
              Hpane eq_refl eq_refl eq_refl eq_refl) as (_ & Hgo).
  exact (Hgo eq_refl).
Defined.

(** X20 on the chat submission of the example. *)
Lemma answered_chat_is_refreshed_in_the_rerun_witness :
  let e := sample_env (answering 200 sample_answer) in
  let w := sample_widgets (Some (ChatBox "hello")) in
  let s := initial_session sample_now in
  let s1 := final (on_chat_input sample_float_of_str e "hello" (stored w s)) in
  silent sample_pane /\
  ended (on_chat_input sample_float_of_str e "hello" (stored w s)) = Rerun /\
  final (run_once sample_float_of_str sample_str_of_json sample_title_of_str sample_pane e w s) = s1 /\
  react sample_float_of_str sample_str_of_json sample_title_of_str sample_pane e e w s =
    step sample_float_of_str sample_str_of_json sample_title_of_str e AutoRefresh s1.
Proof.
  intros e w s s1.
  assert (Hpane : silent sample_pane) by exact (silent_ret tt).
  assert (Hrerun : ended (on_chat_input sample_float_of_str e "hello" (stored w s))
                   = Rerun) by (vm_compute; reflexivity).
  split; [exact Hpane|]. split; [exact Hrerun|].
  destruct (answered_chat_is_refreshed_in_the_rerun sample_float_of_str
              sample_str_of_json sample_title_of_str sample_pane e e w s "hello"
              "Medical advice and health guidance"
              Hpane eq_refl eq_refl eq_refl Hrerun) as (Hfinal & _ & _ & Hgo).
  split; [exact Hfinal | exact (Hgo eq_refl)].
Defined.
